(** * SmileCare backend: availability, conflict detection and the booking
      lifecycle

    A shallow embedding of [Backend/models/Dentist.js],
    [Backend/models/Appointment.js] and the appointment handlers of
    [Backend/controllers/patientController.js], followed by the properties
    the specification states about them. *)

From Stdlib Require Import ZArith List String Ascii Bool Lia.
From Stdlib Require Import Numbers.DecimalString.
Import ListNotations.

Open Scope string_scope.
Open Scope Z_scope.

(** ** JavaScript values used by the models *)

Module JS.

(** A JavaScript number restricted to the integers the scheduling code
    computes with, plus [NaN]. *)
Inductive Num : Type :=
| Int (z : Z)
| NaN.

Definition add (a b : Num) : Num :=
  match a, b with
  | Int x, Int y => Int (x + y)
  | _, _ => NaN
  end.

Definition sub (a b : Num) : Num :=
  match a, b with
  | Int x, Int y => Int (x - y)
  | _, _ => NaN
  end.

Definition mul (a b : Num) : Num :=
  match a, b with
  | Int x, Int y => Int (x * y)
  | _, _ => NaN
  end.

(** Relational operators on strings compare code units left to right; on
    the ASCII strings handled here that is [String.compare]. MongoDB's
    [$lt]/[$gt] on strings use the same binary order. *)
Definition lt (a b : string) : bool := String.ltb a b.
Definition gt (a b : string) : bool := String.ltb b a.
Definition le (a b : string) : bool := String.leb a b.
Definition ge (a b : string) : bool := String.leb b a.

(** A string is truthy unless it is empty. *)
Definition truthy (s : string) : bool := negb (s =? "")%string.

(** [s.split(sep)] for a one-character separator. *)
Fixpoint split (sep : ascii) (s : string) : list string :=
  match s with
  | EmptyString => [EmptyString]
  | String c rest =>
      if Ascii.eqb c sep then EmptyString :: split sep rest
      else match split sep rest with
           | [] => [String c EmptyString]
           | piece :: pieces => String c piece :: pieces
           end
  end.

Definition digit (c : ascii) : option Z :=
  let n := Z.of_N (N_of_ascii c) in
  if (48 <=? n) && (n <=? 57) then Some (n - 48) else None.

Fixpoint digits (acc : Z) (s : string) : Num :=
  match s with
  | EmptyString => Int acc
  | String c rest =>
      match digit c with
      | Some d => digits (10 * acc + d) rest
      | None => NaN
      end
  end.

(** [Number(s)] on strings of decimal digits (the empty string is 0).
    Every string the schemas' HH:MM pattern admits splits into such
    pieces; other spellings of numbers (signs, exponents, blanks) are
    outside this model and read as [NaN]. *)
Definition Number (s : string) : Num := digits 0 s.

(** [const [h, m] = time.split(":").map(Number)], the idiom both models
    use to read an HH:MM string; a missing second piece is [undefined],
    which arithmetic turns into [NaN]. *)
Definition hourMinute (time : string) : Num * Num :=
  match map Number (split ":" time) with
  | h :: m :: _ => (h, m)
  | [h] => (h, NaN)
  | [] => (NaN, NaN)
  end.

(** [h * 60 + m]. *)
Definition toMinutes (time : string) : Num :=
  let '(h, m) := hourMinute time in add (mul h (Int 60)) m.

(** [n.toString()] for an integer. *)
Definition toString (n : Z) : string := NilZero.string_of_int (Z.to_int n).

Fixpoint replicate (n : nat) (c : ascii) : string :=
  match n with
  | O => EmptyString
  | S k => String c (replicate k c)
  end.

(** [s.padStart(targetLength, c)] for a one-character pad string. *)
Definition padStart (targetLength : nat) (c : ascii) (s : string) : string :=
  replicate (targetLength - String.length s) c ++ s.

(** [s.replace(/-/g, '')]. *)
Fixpoint removeDashes (s : string) : string :=
  match s with
  | EmptyString => EmptyString
  | String c rest =>
      if Ascii.eqb c "-" then removeDashes rest else String c (removeDashes rest)
  end.

(** *** Dates

    A [Date] is its time value: milliseconds since the epoch, UTC. The
    host's time zone enters through [LocalTZA], as in ECMAScript. *)

Definition Date := Z.

Definition msPerDay : Z := 86400000.
Definition Day (t : Z) : Z := t / msPerDay.
Definition WeekDay (t : Z) : Z := (Day t + 4) mod 7.

(** Civil date (year, month 1..12, day 1..31) of a day number. *)
Definition civil (days : Z) : Z * Z * Z :=
  let z := days + 719468 in
  let era := z / 146097 in
  let doe := z - era * 146097 in
  let yoe := (doe - doe / 1460 + doe / 36524 - doe / 146096) / 365 in
  let doy := doe - (365 * yoe + yoe / 4 - yoe / 100) in
  let mp := (5 * doy + 2) / 153 in
  let d := doy - (153 * mp + 2) / 5 + 1 in
  let m := if mp <? 10 then mp + 3 else mp - 9 in
  let y := yoe + era * 400 + (if m <=? 2 then 1 else 0) in
  (y, m, d).

Definition pad (width : nat) (n : Z) : string := padStart width "0" (toString n).

Definition isoYear (y : Z) : string :=
  if (0 <=? y) && (y <=? 9999) then pad 4 y
  else if y <? 0 then "-" ++ pad 6 (- y)
  else "+" ++ pad 6 y.

(** [d.toISOString().split("T")[0]]: the UTC calendar date. *)
Definition isoDate (t : Date) : string :=
  let '(y, m, d) := civil (Day t) in
  isoYear y ++ "-" ++ pad 2 m ++ "-" ++ pad 2 d.

Section LocalTime.
Variable LocalTZA : Z -> bool -> Z.

Definition LocalTime (t : Z) : Z := t + LocalTZA t true.
Definition UTC (t : Z) : Z := t - LocalTZA t false.

(** [d.getDay()]: 0 is Sunday. *)
Definition getDay (t : Date) : Z := WeekDay (LocalTime t).

(** [d.setHours(0, 0, 0, 0)]: local midnight of the day of [t]. *)
Definition startOfDay (t : Date) : Date := UTC (Day (LocalTime t) * msPerDay).

(** [d.setHours(hours, minutes, 0, 0)]: that time of the local day of [t];
    the time value, [NaN] (an invalid date) when an argument is [NaN]. *)
Definition setHours (t : Date) (hours minutes : Num) : Num :=
  match hours, minutes with
  | Int h, Int m => Int (UTC (Day (LocalTime t) * msPerDay + h * 3600000 + m * 60000))
  | _, _ => NaN
  end.
End LocalTime.

End JS.


(** MongoDB document identifiers: opaque, and always truthy. *)
Definition ObjectId := N.

(** ** [models/Dentist.js] *)

Module Dentist.

Record AvailabilitySlot : Type := {
  dayOfWeek : Z;
  startTime : string;
  endTime : string;
  isActive : bool
}.

Record TimeOff : Type := {
  startDate : JS.Date;
  endDate : JS.Date;
  isApproved : bool
}.

Record Schedule : Type := {
  regularHours : list AvailabilitySlot;
  timeOff : list TimeOff;
  consultationDuration : Z;
  bufferTime : Z
}.

Inductive Status : Type := active | inactive | on_leave | suspended.

Definition Status_eqb (a b : Status) : bool :=
  match a, b with
  | active, active | inactive, inactive
  | on_leave, on_leave | suspended, suspended => true
  | _, _ => false
  end.

(** The paths of the dentist document that scheduling reads. *)
Record t : Type := {
  _id : ObjectId;
  schedule : Schedule;
  status : Status
}.

(** The template literal of the loop body:
    [hour.toString().padStart(2, "0")]:[minute.toString().padStart(2, "0")]
    with [hour = Math.floor(minutes / 60)] and [minute = minutes % 60]. *)
Definition timeString (minutes : Z) : string :=
  let hour := minutes / 60 in
  let minute := Z.rem minutes 60 in
  JS.padStart 2 "0" (JS.toString hour) ++ ":" ++ JS.padStart 2 "0" (JS.toString minute).

(** The [for] loop of [getAvailableSlots]: [minutes] is the loop variable,
    [slots] the array built so far. The source puts no bound on the number
    of iterations; [fuel] makes that explicit, and [None] means the loop was
    still running when it ran out. The result carries the value of the loop
    variable at exit. *)
Fixpoint slotLoop (fuel : nat) (duration endMinutes totalSlotTime : Z)
         (minutes : Z) (slots : list string) : option (Z * list string) :=
  match fuel with
  | O => None
  | S fuel' =>
      if minutes + duration <=? endMinutes
      then slotLoop fuel' duration endMinutes totalSlotTime
                    (minutes + totalSlotTime) (slots ++ [timeString minutes])
      else Some (minutes, slots)
  end.

Section Methods.
Variable LocalTZA : Z -> bool -> Z.

(** [this.schedule.regularHours.find(slot => slot.dayOfWeek === dayOfWeek && slot.isActive)] *)
Definition findRegularHours (this : t) (date : JS.Date) : option AvailabilitySlot :=
  let dayOfWeek' := JS.getDay LocalTZA date in
  find (fun slot => (slot.(dayOfWeek) =? dayOfWeek') && slot.(isActive))
       this.(schedule).(regularHours).

(** The [some] callback shared by both methods. *)
Definition coversDate (requestDate : string) (timeOff : TimeOff) : bool :=
  let startDate' := JS.isoDate timeOff.(startDate) in
  let endDate' := JS.isoDate timeOff.(endDate) in
  JS.ge requestDate startDate' && JS.le requestDate endDate' && timeOff.(isApproved).

Definition hasTimeOff (this : t) (date : JS.Date) : bool :=
  let requestDate := JS.isoDate date in
  existsb (coversDate requestDate) this.(schedule).(timeOff).

Definition isAvailableAt (this : t) (date : JS.Date) (startTime' endTime' : string) : bool :=
  match findRegularHours this date with
  | None => false
  | Some regularHours' =>
      let slotStart := regularHours'.(startTime) in
      let slotEnd := regularHours'.(endTime) in
      if JS.lt startTime' slotStart || JS.gt endTime' slotEnd then false
      else negb (hasTimeOff this date)
  end.

(** [None] only when the slot loop outlives [fuel]. A [NaN] bound makes
    the loop's first test false, so the empty array is returned. *)
Definition getAvailableSlots (fuel : nat) (this : t) (date : JS.Date)
  : option (list string) :=
  match findRegularHours this date with
  | None => Some []
  | Some regularHours' =>
      if hasTimeOff this date then Some []
      else
        let duration := this.(schedule).(consultationDuration) in
        let buffer := this.(schedule).(bufferTime) in
        let totalSlotTime := duration + buffer in
        match JS.toMinutes regularHours'.(startTime),
              JS.toMinutes regularHours'.(endTime) with
        | JS.Int startMinutes, JS.Int endMinutes =>
            option_map snd
              (slotLoop fuel duration endMinutes totalSlotTime startMinutes [])
        | _, _ => Some []
        end
  end.
End Methods.

(** The pattern of the schema's [match] validator on [startTime] and
    [endTime]: [/^([01]?[0-9]|2[0-3]):[0-5][0-9]$/]. *)
Definition isDigit (c : ascii) : bool :=
  match JS.digit c with Some _ => true | None => false end.

Definition digitBelow (bound : Z) (c : ascii) : bool :=
  match JS.digit c with Some d => d <=? bound | None => false end.

Definition validMinutes (s : string) : bool :=
  match s with
  | String m1 (String m2 EmptyString) => digitBelow 5 m1 && isDigit m2
  | _ => false
  end.

Definition validTime (s : string) : bool :=
  match s with
  | String h1 (String c rest) =>
      if Ascii.eqb c ":" then isDigit h1 && validMinutes rest
      else
        match rest with
        | String colon rest' =>
            Ascii.eqb colon ":" && validMinutes rest'
            && ((digitBelow 1 h1 && isDigit c)
                || (Ascii.eqb h1 "2" && digitBelow 3 c))
        | EmptyString => false
        end
  | _ => false
  end.

End Dentist.

(** ** [models/Appointment.js] *)

Module Appointment.

Inductive Status : Type :=
| scheduled | confirmed | in_progress | completed | cancelled | no_show | rescheduled.

Definition Status_eqb (a b : Status) : bool :=
  match a, b with
  | scheduled, scheduled | confirmed, confirmed | in_progress, in_progress
  | completed, completed | cancelled, cancelled | no_show, no_show
  | rescheduled, rescheduled => true
  | _, _ => false
  end.

(** The enum of [cancelledBy] and [rescheduledBy]. *)
Module Actor.
Inductive t : Type := patient | dentist | staff | system.
End Actor.

Module Treatment.
Record t : Type := { name : string; duration : Z; cost : option Z }.
End Treatment.

Module Cost.
Record t : Type := {
  estimated : option Z;
  actual : option Z;
  insuranceCovered : option Z;
  patientPayment : option Z
}.
End Cost.

(** Nested paths: the object is always there, each path may be unset. *)
Module Cancellation.
Record t : Type := {
  reason : option string;
  cancelledBy : option Actor.t;
  cancelledAt : option JS.Date;
  refundAmount : option Z
}.
Definition unset : t :=
  {| reason := None; cancelledBy := None; cancelledAt := None; refundAmount := None |}.
End Cancellation.

Module Rescheduling.
Record t : Type := {
  originalDate : option JS.Date;
  originalTime : option string;
  reason : option string;
  rescheduledBy : option Actor.t;
  rescheduledAt : option JS.Date
}.
Definition unset : t :=
  {| originalDate := None; originalTime := None; reason := None;
     rescheduledBy := None; rescheduledAt := None |}.
End Rescheduling.

(** The appointment document. The descriptive paths ([type], [priority],
    [reason], [symptoms], [notes], [payment], [reminders], [followUp]) are
    neither read nor written by the methods below and are left out;
    [createdAt] and [updatedAt] come from the schema's [timestamps]
    option. *)
Record t : Type := {
  _id : ObjectId;
  appointmentId : string;
  patient : ObjectId;
  dentist : ObjectId;
  appointmentDate : JS.Date;
  startTime : string;
  endTime : string;
  duration : JS.Num;
  status : Status;
  treatments : list Treatment.t;
  cost : Cost.t;
  cancellation : Cancellation.t;
  rescheduling : Rescheduling.t;
  createdAt : JS.Date;
  updatedAt : JS.Date
}.

Definition set_appointmentId (v : string) (a : t) : t :=
  {| _id := a.(_id); appointmentId := v; patient := a.(patient);
     dentist := a.(dentist); appointmentDate := a.(appointmentDate);
     startTime := a.(startTime); endTime := a.(endTime);
     duration := a.(duration); status := a.(status);
     treatments := a.(treatments); cost := a.(cost);
     cancellation := a.(cancellation); rescheduling := a.(rescheduling);
     createdAt := a.(createdAt); updatedAt := a.(updatedAt) |}.

Definition set_patient (v : ObjectId) (a : t) : t :=
  {| _id := a.(_id); appointmentId := a.(appointmentId); patient := v;
     dentist := a.(dentist); appointmentDate := a.(appointmentDate);
     startTime := a.(startTime); endTime := a.(endTime);
     duration := a.(duration); status := a.(status);
     treatments := a.(treatments); cost := a.(cost);
     cancellation := a.(cancellation); rescheduling := a.(rescheduling);
     createdAt := a.(createdAt); updatedAt := a.(updatedAt) |}.

Definition set_dentist (v : ObjectId) (a : t) : t :=
  {| _id := a.(_id); appointmentId := a.(appointmentId); patient := a.(patient);
     dentist := v; appointmentDate := a.(appointmentDate);
     startTime := a.(startTime); endTime := a.(endTime);
     duration := a.(duration); status := a.(status);
     treatments := a.(treatments); cost := a.(cost);
     cancellation := a.(cancellation); rescheduling := a.(rescheduling);
     createdAt := a.(createdAt); updatedAt := a.(updatedAt) |}.

Definition set_appointmentDate (v : JS.Date) (a : t) : t :=
  {| _id := a.(_id); appointmentId := a.(appointmentId); patient := a.(patient);
     dentist := a.(dentist); appointmentDate := v;
     startTime := a.(startTime); endTime := a.(endTime);
     duration := a.(duration); status := a.(status);
     treatments := a.(treatments); cost := a.(cost);
     cancellation := a.(cancellation); rescheduling := a.(rescheduling);
     createdAt := a.(createdAt); updatedAt := a.(updatedAt) |}.

Definition set_startTime (v : string) (a : t) : t :=
  {| _id := a.(_id); appointmentId := a.(appointmentId); patient := a.(patient);
     dentist := a.(dentist); appointmentDate := a.(appointmentDate);
     startTime := v; endTime := a.(endTime);
     duration := a.(duration); status := a.(status);
     treatments := a.(treatments); cost := a.(cost);
     cancellation := a.(cancellation); rescheduling := a.(rescheduling);
     createdAt := a.(createdAt); updatedAt := a.(updatedAt) |}.

Definition set_endTime (v : string) (a : t) : t :=
  {| _id := a.(_id); appointmentId := a.(appointmentId); patient := a.(patient);
     dentist := a.(dentist); appointmentDate := a.(appointmentDate);
     startTime := a.(startTime); endTime := v;
     duration := a.(duration); status := a.(status);
     treatments := a.(treatments); cost := a.(cost);
     cancellation := a.(cancellation); rescheduling := a.(rescheduling);
     createdAt := a.(createdAt); updatedAt := a.(updatedAt) |}.

Definition set_duration (v : JS.Num) (a : t) : t :=
  {| _id := a.(_id); appointmentId := a.(appointmentId); patient := a.(patient);
     dentist := a.(dentist); appointmentDate := a.(appointmentDate);
     startTime := a.(startTime); endTime := a.(endTime);
     duration := v; status := a.(status);
     treatments := a.(treatments); cost := a.(cost);
     cancellation := a.(cancellation); rescheduling := a.(rescheduling);
     createdAt := a.(createdAt); updatedAt := a.(updatedAt) |}.

Definition set_status (v : Status) (a : t) : t :=
  {| _id := a.(_id); appointmentId := a.(appointmentId); patient := a.(patient);
     dentist := a.(dentist); appointmentDate := a.(appointmentDate);
     startTime := a.(startTime); endTime := a.(endTime);
     duration := a.(duration); status := v;
     treatments := a.(treatments); cost := a.(cost);
     cancellation := a.(cancellation); rescheduling := a.(rescheduling);
     createdAt := a.(createdAt); updatedAt := a.(updatedAt) |}.

Definition set_treatments (v : list Treatment.t) (a : t) : t :=
  {| _id := a.(_id); appointmentId := a.(appointmentId); patient := a.(patient);
     dentist := a.(dentist); appointmentDate := a.(appointmentDate);
     startTime := a.(startTime); endTime := a.(endTime);
     duration := a.(duration); status := a.(status);
     treatments := v; cost := a.(cost);
     cancellation := a.(cancellation); rescheduling := a.(rescheduling);
     createdAt := a.(createdAt); updatedAt := a.(updatedAt) |}.

Definition set_cost (v : Cost.t) (a : t) : t :=
  {| _id := a.(_id); appointmentId := a.(appointmentId); patient := a.(patient);
     dentist := a.(dentist); appointmentDate := a.(appointmentDate);
     startTime := a.(startTime); endTime := a.(endTime);
     duration := a.(duration); status := a.(status);
     treatments := a.(treatments); cost := v;
     cancellation := a.(cancellation); rescheduling := a.(rescheduling);
     createdAt := a.(createdAt); updatedAt := a.(updatedAt) |}.

Definition set_cancellation (v : Cancellation.t) (a : t) : t :=
  {| _id := a.(_id); appointmentId := a.(appointmentId); patient := a.(patient);
     dentist := a.(dentist); appointmentDate := a.(appointmentDate);
     startTime := a.(startTime); endTime := a.(endTime);
     duration := a.(duration); status := a.(status);
     treatments := a.(treatments); cost := a.(cost);
     cancellation := v; rescheduling := a.(rescheduling);
     createdAt := a.(createdAt); updatedAt := a.(updatedAt) |}.

Definition set_rescheduling (v : Rescheduling.t) (a : t) : t :=
  {| _id := a.(_id); appointmentId := a.(appointmentId); patient := a.(patient);
     dentist := a.(dentist); appointmentDate := a.(appointmentDate);
     startTime := a.(startTime); endTime := a.(endTime);
     duration := a.(duration); status := a.(status);
     treatments := a.(treatments); cost := a.(cost);
     cancellation := a.(cancellation); rescheduling := v;
     createdAt := a.(createdAt); updatedAt := a.(updatedAt) |}.

Definition set_updatedAt (v : JS.Date) (a : t) : t :=
  {| _id := a.(_id); appointmentId := a.(appointmentId); patient := a.(patient);
     dentist := a.(dentist); appointmentDate := a.(appointmentDate);
     startTime := a.(startTime); endTime := a.(endTime);
     duration := a.(duration); status := a.(status);
     treatments := a.(treatments); cost := a.(cost);
     cancellation := a.(cancellation); rescheduling := a.(rescheduling);
     createdAt := a.(createdAt); updatedAt := v |}.

(** The collection, in the order [findOne] scans it. *)
Definition Collection := list t.

Definition findById (docs : Collection) (id : ObjectId) : option t :=
  find (fun a => (a.(_id) =? id)%N) docs.

(** Writing a document back replaces the stored one with the same [_id]. *)
Definition store (docs : Collection) (doc : t) : Collection :=
  map (fun a => if (a.(_id) =? doc.(_id))%N then doc else a) docs.

(** *** Static [checkConflict]

    The filter document of the query, as a predicate on a stored
    appointment. [excludeId] is [null] by default; an id given is
    truthy. *)
Definition conflictQuery (dentistId : ObjectId) (appointmentDate' : JS.Date)
           (startTime' endTime' : string) (excludeId : option ObjectId) (a : t) : bool :=
  (a.(dentist) =? dentistId)%N
  && (a.(appointmentDate) =? appointmentDate')
  && negb (existsb (Status_eqb a.(status)) [cancelled; no_show])
  && (JS.lt a.(startTime) endTime' && JS.gt a.(endTime) startTime')
  && match excludeId with
     | Some id => negb (a.(_id) =? id)%N
     | None => true
     end.

(** [this.findOne(query)]: the first match, or [null]. *)
Definition checkConflict (docs : Collection) (dentistId : ObjectId)
           (appointmentDate' : JS.Date) (startTime' endTime' : string)
           (excludeId : option ObjectId) : option t :=
  find (conflictQuery dentistId appointmentDate' startTime' endTime' excludeId) docs.

Section Methods.
Variable LocalTZA : Z -> bool -> Z.

(** *** Virtuals *)

(** [appointmentDateTime]: [null] without a start time, else the appointment
    date with its clock set to the start time. *)
Definition appointmentDateTime (this : t) : option JS.Num :=
  if negb (JS.truthy this.(startTime)) then None
  else
    let '(hours, minutes) := JS.hourMinute this.(startTime) in
    Some (JS.setHours LocalTZA this.(appointmentDate) hours minutes).

Definition appointmentEndDateTime (this : t) : option JS.Num :=
  if negb (JS.truthy this.(endTime)) then None
  else
    let '(hours, minutes) := JS.hourMinute this.(endTime) in
    Some (JS.setHours LocalTZA this.(appointmentDate) hours minutes).


(** *** [pre('save')] middleware *)

(** [APT<yyyymmdd><count + 1, three digits>], from the number of
    appointments created since local midnight. [slice(0, 10)] of the ISO
    string is taken on its date part, which is at least that long. *)
Definition generateAppointmentId (now : JS.Date) (docs : Collection) : string :=
  let today := JS.removeDashes (substring 0 10 (JS.isoDate now)) in
  let count :=
    Z.of_nat (List.length
      (filter (fun a => JS.startOfDay LocalTZA now <=? a.(createdAt)) docs)) in
  "APT" ++ today ++ JS.padStart 3 "0" (JS.toString (count + 1)).

Definition preSaveAppointmentId (now : JS.Date) (docs : Collection) (this : t) : t :=
  if negb (JS.truthy this.(appointmentId))
  then set_appointmentId (generateAppointmentId now docs) this
  else this.

Definition preSaveDuration (this : t) : t :=
  if JS.truthy this.(startTime) && JS.truthy this.(endTime)
  then
    let startTotalMinutes := JS.toMinutes this.(startTime) in
    let endTotalMinutes := JS.toMinutes this.(endTime) in
    set_duration (JS.sub endTotalMinutes startTotalMinutes) this
  else this.

(** [await this.save()] on a document loaded from the collection: the two
    [pre('save')] hooks run in the order they were registered, the
    [timestamps] option refreshes [updatedAt], and the document is
    written back. Returns the collection and the document as it now
    is in memory. The values saved are taken to satisfy the schema's
    validators. *)
Definition save (now : JS.Date) (docs : Collection) (this : t) : Collection * t :=
  let this1 := preSaveAppointmentId now docs this in
  let this2 := preSaveDuration this1 in
  let this3 := set_updatedAt now this2 in
  (store docs this3, this3).

(** *** Instance methods *)

Definition cancel (now : JS.Date) (docs : Collection) (this : t)
           (reason : option string) (cancelledBy : Actor.t) (refundAmount : Z)
  : Collection * t :=
  let this1 := set_status cancelled this in
  let this2 :=
    set_cancellation
      {| Cancellation.reason := reason;
         Cancellation.cancelledBy := Some cancelledBy;
         Cancellation.cancelledAt := Some now;
         Cancellation.refundAmount := Some refundAmount |} this1 in
  save now docs this2.

Definition reschedule (now : JS.Date) (docs : Collection) (this : t)
           (newDate : JS.Date) (newStartTime newEndTime : string)
           (reason : option string) (rescheduledBy : Actor.t)
  : Collection * t :=
  let this1 :=
    set_rescheduling
      {| Rescheduling.originalDate := Some this.(appointmentDate);
         Rescheduling.originalTime := Some this.(startTime);
         Rescheduling.reason := reason;
         Rescheduling.rescheduledBy := Some rescheduledBy;
         Rescheduling.rescheduledAt := Some now |} this in
  let this2 := set_appointmentDate newDate this1 in
  let this3 := set_startTime newStartTime this2 in
  let this4 := set_endTime newEndTime this3 in
  let this5 := set_status rescheduled this4 in
  save now docs this5.
End Methods.

(** [Appointment.findByIdAndUpdate(id, update, { new: true })]: no
    [pre('save')] hook runs; [timestamps] still refreshes [updatedAt]. *)
Definition findByIdAndUpdate (now : JS.Date) (docs : Collection) (id : ObjectId)
           (update : t -> t) : Collection * option t :=
  match findById docs id with
  | None => (docs, None)
  | Some doc =>
      let doc' := set_updatedAt now (update doc) in
      (store docs doc', Some doc')
  end.

(** The collection without its first document of the given id. *)
Fixpoint removeById (docs : Collection) (id : ObjectId) : Collection :=
  match docs with
  | [] => []
  | a :: rest => if (a.(_id) =? id)%N then rest else a :: removeById rest id
  end.

(** [Appointment.findByIdAndDelete(id)]: the document removed, or [null]. *)
Definition findByIdAndDelete (docs : Collection) (id : ObjectId) : Collection * option t :=
  match findById docs id with
  | None => (docs, None)
  | Some doc => (removeById docs id, Some doc)
  end.

End Appointment.

(** ** The other collections and the request *)

Module Patient.
Record t : Type := { _id : ObjectId; userId : ObjectId }.

(** [Patient.findOne({ userId })]. *)
Definition findOne (docs : list t) (userId' : ObjectId) : option t :=
  find (fun p => (p.(userId) =? userId')%N) docs.
End Patient.

(** The database the handlers run against. *)
Record Db : Type := {
  appointments : Appointment.Collection;
  dentists : list Dentist.t;
  patients : list Patient.t
}.

Definition set_appointments (docs : Appointment.Collection) (db : Db) : Db :=
  {| appointments := docs; dentists := db.(dentists); patients := db.(patients) |}.

Definition set_dentists (docs : list Dentist.t) (db : Db) : Db :=
  {| appointments := db.(appointments); dentists := docs; patients := db.(patients) |}.

Module Request.
Record User : Type := { _id : ObjectId; role : string }.

(** What the handlers read of [req] besides [params.id] and [body]:
    the authenticated user and the [patientOnly] flag the authorisation
    middleware sets. *)
Record t : Type := { user : User; patientOnly : bool }.
End Request.

(** ** [controllers/patientController.js]: the appointment handlers

    A handler is run against the database and ends in a response or in an
    exception. The [populate] calls, which only decorate the document sent
    back, are left out. *)

Module Controller.

(** The helpers of [utils/response.js] a handler ends with; the data of a
    success may be [null]. *)
Inductive Response : Type :=
| successResponse (data : option Appointment.t) (message : string)
| errorResponse (message : string) (statusCode : Z)
| notFoundResponse (resource : string)
| conflictResponse (message : string).

Inductive Exception : Type :=
| TypeError (message : string).

(** A handler either sends a response or its promise is rejected, in which
    case [asyncHandler] hands the exception to the error middleware. *)
Inductive Outcome : Type :=
| Sent (r : Response)
| Rejected (e : Exception).

(** *** A small monad for the handlers: database state, early [return] of a
    response, and exceptions. *)
Definition M (A : Type) : Type := Db -> Db * (A + Outcome).

Definition ret {A : Type} (a : A) : M A := fun db => (db, inl a).

Definition bind {A B : Type} (m : M A) (k : A -> M B) : M B :=
  fun db =>
    match m db with
    | (db', inl a) => k a db'
    | (db', inr o) => (db', inr o)
    end.

Definition respond {A : Type} (r : Response) : M A := fun db => (db, inr (Sent r)).
Definition throw {A : Type} (e : Exception) : M A := fun db => (db, inr (Rejected e)).

Definition when (c : bool) (m : M unit) : M unit := if c then m else ret tt.

(** [if (!x) return r]. *)
Definition orReturn {A : Type} (x : option A) (r : Response) : M A :=
  match x with
  | Some a => ret a
  | None => respond r
  end.

Definition run (h : M Response) (db : Db) : Db * Outcome :=
  match h db with
  | (db', inl r) => (db', Sent r)
  | (db', inr o) => (db', o)
  end.

Declare Scope handler_scope.
Delimit Scope handler_scope with handler.
Notation "x <- m ;; k" := (bind m (fun x => k))
  (at level 61, m at next level, right associativity) : handler_scope.
Notation "m ;; k" := (bind m (fun _ => k))
  (at level 61, right associativity) : handler_scope.
Local Open Scope handler_scope.

(** Database operations, lifted. *)
Definition Appointment_findById (id : ObjectId) : M (option Appointment.t) :=
  fun db => (db, inl (Appointment.findById db.(appointments) id)).

Definition Patient_findOne (userId : ObjectId) : M (option Patient.t) :=
  fun db => (db, inl (Patient.findOne db.(patients) userId)).

Definition Dentist_findById (id : ObjectId) : M (option Dentist.t) :=
  fun db => (db, inl (find (fun d => (d.(Dentist._id) =? id)%N) db.(dentists))).

Definition Appointment_checkConflict (dentistId : ObjectId) (date : JS.Date)
           (startTime endTime : string) (excludeId : option ObjectId)
  : M (option Appointment.t) :=
  fun db =>
    (db, inl (Appointment.checkConflict db.(appointments) dentistId date
                startTime endTime excludeId)).

Definition Appointment_findByIdAndUpdate (now : JS.Date) (id : ObjectId)
           (update : Appointment.t -> Appointment.t) : M (option Appointment.t) :=
  fun db =>
    let '(docs, doc) := Appointment.findByIdAndUpdate now db.(appointments) id update in
    (set_appointments docs db, inl doc).

(** [!patient || appointment.patient.toString() !== patient._id.toString()] *)
Definition notOwner (patient : option Patient.t) (appointment : Appointment.t) : bool :=
  match patient with
  | None => true
  | Some p => negb (appointment.(Appointment.patient) =? p.(Patient._id))%N
  end.

(** ['staff'], ['patient'] for a patient-only request, else ['dentist'] for
    a dentist. *)
Definition actorOf (req : Request.t) : Appointment.Actor.t :=
  if req.(Request.patientOnly) then Appointment.Actor.patient
  else if (req.(Request.user).(Request.role) =? "dentist")%string
       then Appointment.Actor.dentist
       else Appointment.Actor.staff.

(** *** The request bodies *)

Record CancelBody : Type := {
  cancel_reason : option string;
  cancel_refundAmount : option Z
}.

Record RescheduleBody : Type := {
  newDate : JS.Date;
  newStartTime : string;
  newEndTime : string;
  reschedule_reason : option string
}.

(** What [completeAppointment] reads of its body on the modelled paths:
    [treatments] and [cost?.actual]. *)
Record CompleteBody : Type := {
  complete_treatments : option (list Appointment.Treatment.t);
  complete_costActual : option Z
}.

(** The body of a general update: the keys naming a modelled path, each
    present or not, and the names of the other keys. Dates arrive as
    ISO strings and are held here as the time value [new Date] gives
    them. *)
Record Updates : Type := {
  u_patient : option ObjectId;
  u_dentist : option ObjectId;
  u_appointmentDate : option JS.Date;
  u_startTime : option string;
  u_endTime : option string;
  u_duration : option JS.Num;
  u_status : option Appointment.Status;
  u_treatments : option (list Appointment.Treatment.t);
  u_cost : option Appointment.Cost.t;
  u_cancellation : option Appointment.Cancellation.t;
  u_rescheduling : option Appointment.Rescheduling.t;
  u_otherKeys : list string
}.

Definition present {A : Type} (x : option A) : bool :=
  match x with Some _ => true | None => false end.

(** Truthiness of an optional string: present and not empty. *)
Definition truthyStr (x : option string) : bool :=
  match x with Some s => JS.truthy s | None => false end.

(** [updateKeys.some(key => !allowedFields.includes(key))] after the three
    [delete]s. No modelled path is among the allowed fields. *)
Definition hasDisallowedFields (updates : Updates) : bool :=
  let allowedFields := ["symptoms"; "notes.beforeAppointment"] in
  let removed := ["appointmentId"; "createdAt"; "updatedAt"] in
  present updates.(u_patient) || present updates.(u_dentist)
  || present updates.(u_appointmentDate) || present updates.(u_startTime)
  || present updates.(u_endTime) || present updates.(u_duration)
  || present updates.(u_status) || present updates.(u_treatments)
  || present updates.(u_cost) || present updates.(u_cancellation)
  || present updates.(u_rescheduling)
  || existsb (fun key => negb (existsb (String.eqb key) allowedFields))
       (filter (fun key => negb (existsb (String.eqb key) removed))
               updates.(u_otherKeys)).

Definition setIf {A : Type} (x : option A) (set : A -> Appointment.t -> Appointment.t)
           (a : Appointment.t) : Appointment.t :=
  match x with Some v => set v a | None => a end.

(** The update document applied to the stored appointment. *)
Definition applyUpdates (updates : Updates) (a : Appointment.t) : Appointment.t :=
  setIf updates.(u_rescheduling) Appointment.set_rescheduling
    (setIf updates.(u_cancellation) Appointment.set_cancellation
      (setIf updates.(u_cost) Appointment.set_cost
        (setIf updates.(u_treatments) Appointment.set_treatments
          (setIf updates.(u_status) Appointment.set_status
            (setIf updates.(u_duration) Appointment.set_duration
              (setIf updates.(u_endTime) Appointment.set_endTime
                (setIf updates.(u_startTime) Appointment.set_startTime
                  (setIf updates.(u_appointmentDate) Appointment.set_appointmentDate
                    (setIf updates.(u_dentist) Appointment.set_dentist
                      (setIf updates.(u_patient) Appointment.set_patient a)))))))))).

(** [updates.appointmentDate || updates.startTime || updates.endTime] *)
Definition touchesTime (updates : Updates) : bool :=
  present updates.(u_appointmentDate)
  || truthyStr updates.(u_startTime) || truthyStr updates.(u_endTime).

(** [x || y] on an optional string and a default. *)
Definition orElse (x : option string) (y : string) : string :=
  match x with
  | Some s => if JS.truthy s then s else y
  | None => y
  end.

Section Handlers.
Variable LocalTZA : Z -> bool -> Z.
(** The clock, read once per request. *)
Variable now : JS.Date.

Definition Appointment_cancel (this : Appointment.t) (reason : option string)
           (cancelledBy : Appointment.Actor.t) (refundAmount : Z) : M Appointment.t :=
  fun db =>
    let '(docs, this') :=
      Appointment.cancel LocalTZA now db.(appointments) this reason cancelledBy
                         refundAmount in
    (set_appointments docs db, inl this').

Definition Appointment_reschedule (this : Appointment.t) (newDate' : JS.Date)
           (newStartTime' newEndTime' : string) (reason : option string)
           (rescheduledBy : Appointment.Actor.t) : M Appointment.t :=
  fun db =>
    let '(docs, this') :=
      Appointment.reschedule LocalTZA now db.(appointments) this newDate'
                             newStartTime' newEndTime' reason rescheduledBy in
    (set_appointments docs db, inl this').

(** [dentist.isAvailableAt(...)] where [dentist] may be [null]. *)
Definition call_isAvailableAt (dentist : option Dentist.t) (date : JS.Date)
           (startTime endTime : string) : M bool :=
  match dentist with
  | Some d => ret (Dentist.isAvailableAt LocalTZA d date startTime endTime)
  | None =>
      throw (TypeError "Cannot read properties of null (reading 'isAvailableAt')")
  end.

Definition updateAppointment (req : Request.t) (id : ObjectId) (updates : Updates)
  : M Response :=
  appointment <- Appointment_findById id ;;
  appointment <- orReturn appointment (notFoundResponse "Appointment") ;;
  (if req.(Request.patientOnly) then
     patient <- Patient_findOne req.(Request.user).(Request._id) ;;
     when (notOwner patient appointment)
          (respond (errorResponse "Access denied" 403)) ;;
     when (hasDisallowedFields updates)
          (respond (errorResponse "Patients can only update symptoms and notes" 403))
   else ret tt) ;;
  (if touchesTime updates then
     let newDate :=
       match updates.(u_appointmentDate) with
       | Some d => d
       | None => appointment.(Appointment.appointmentDate)
       end in
     let newStartTime := orElse updates.(u_startTime) appointment.(Appointment.startTime) in
     let newEndTime := orElse updates.(u_endTime) appointment.(Appointment.endTime) in
     let dentistId :=
       match updates.(u_dentist) with
       | Some d => d
       | None => appointment.(Appointment.dentist)
       end in
     (if present updates.(u_dentist) then
        dentist <- Dentist_findById dentistId ;;
        when (match dentist with
              | None => true
              | Some d => negb (Dentist.Status_eqb d.(Dentist.status) Dentist.active)
              end)
             (respond (errorResponse "Selected dentist is not available" 400)) ;;
        isAvailable <- call_isAvailableAt dentist newDate newStartTime newEndTime ;;
        when (negb isAvailable)
             (respond (errorResponse "Dentist is not available at the requested time" 409))
      else ret tt) ;;
     conflict <- Appointment_checkConflict dentistId newDate newStartTime newEndTime
                                           (Some id) ;;
     when (present conflict)
          (respond (conflictResponse "Appointment time conflicts with existing appointment"))
   else ret tt) ;;
  updatedAppointment <- Appointment_findByIdAndUpdate now id (applyUpdates updates) ;;
  ret (successResponse updatedAppointment "Appointment updated successfully").

Definition cancelAppointment (req : Request.t) (id : ObjectId) (body : CancelBody)
  : M Response :=
  let reason := body.(cancel_reason) in
  let refundAmount :=
    match body.(cancel_refundAmount) with Some r => r | None => 0 end in
  appointment <- Appointment_findById id ;;
  appointment <- orReturn appointment (notFoundResponse "Appointment") ;;
  (if req.(Request.patientOnly) then
     patient <- Patient_findOne req.(Request.user).(Request._id) ;;
     when (notOwner patient appointment)
          (respond (errorResponse "Access denied" 403))
   else ret tt) ;;
  when (Appointment.Status_eqb appointment.(Appointment.status) Appointment.cancelled)
       (respond (errorResponse "Appointment is already cancelled" 400)) ;;
  when (Appointment.Status_eqb appointment.(Appointment.status) Appointment.completed)
       (respond (errorResponse "Cannot cancel completed appointment" 400)) ;;
  let cancelledBy := actorOf req in
  appointment' <- Appointment_cancel appointment reason cancelledBy refundAmount ;;
  ret (successResponse (Some appointment') "Appointment cancelled successfully").

Definition rescheduleAppointment (req : Request.t) (id : ObjectId)
           (body : RescheduleBody) : M Response :=
  appointment <- Appointment_findById id ;;
  appointment <- orReturn appointment (notFoundResponse "Appointment") ;;
  (if req.(Request.patientOnly) then
     patient <- Patient_findOne req.(Request.user).(Request._id) ;;
     when (notOwner patient appointment)
          (respond (errorResponse "Access denied" 403))
   else ret tt) ;;
  when (Appointment.Status_eqb appointment.(Appointment.status) Appointment.cancelled
        || Appointment.Status_eqb appointment.(Appointment.status) Appointment.completed)
       (respond (errorResponse "Cannot reschedule cancelled or completed appointment" 400)) ;;
  let newAppointmentDate := body.(newDate) in
  let today := JS.startOfDay LocalTZA now in
  when (newAppointmentDate <? today)
       (respond (errorResponse "New appointment date cannot be in the past" 400)) ;;
  dentist <- Dentist_findById appointment.(Appointment.dentist) ;;
  isAvailable <- call_isAvailableAt dentist newAppointmentDate
                                    body.(newStartTime) body.(newEndTime) ;;
  when (negb isAvailable)
       (respond (errorResponse "Dentist is not available at the requested time" 409)) ;;
  conflict <- Appointment_checkConflict appointment.(Appointment.dentist) body.(newDate)
                                        body.(newStartTime) body.(newEndTime) (Some id) ;;
  when (present conflict)
       (respond (conflictResponse "New appointment time conflicts with existing appointment")) ;;
  let rescheduledBy := actorOf req in
  appointment' <- Appointment_reschedule appointment body.(newDate) body.(newStartTime)
                                         body.(newEndTime) body.(reschedule_reason)
                                         rescheduledBy ;;
  ret (successResponse (Some appointment') "Appointment rescheduled successfully").

(** The update document of [completeAppointment] on the modelled paths:
    [status], [treatments] and ['cost.actual']. The notes and the follow-up
    it also writes lie outside the appointment record. *)
Definition completionUpdate (body : CompleteBody) (a : Appointment.t) : Appointment.t :=
  let treatments' :=
    match body.(complete_treatments) with Some l => l | None => [] end in
  let actual :=
    match body.(complete_costActual) with
    | Some c => if c =? 0 then 0 else c
    | None => 0
    end in
  Appointment.set_cost
    {| Appointment.Cost.estimated := a.(Appointment.cost).(Appointment.Cost.estimated);
       Appointment.Cost.actual := Some actual;
       Appointment.Cost.insuranceCovered :=
         a.(Appointment.cost).(Appointment.Cost.insuranceCovered);
       Appointment.Cost.patientPayment :=
         a.(Appointment.cost).(Appointment.Cost.patientPayment) |}
    (Appointment.set_treatments treatments'
       (Appointment.set_status Appointment.completed a)).

Definition completeAppointment (id : ObjectId) (body : CompleteBody) : M Response :=
  appointment <- Appointment_findById id ;;
  appointment <- orReturn appointment (notFoundResponse "Appointment") ;;
  when (Appointment.Status_eqb appointment.(Appointment.status) Appointment.cancelled)
       (respond (errorResponse "Cannot complete cancelled appointment" 400)) ;;
  updatedAppointment <- Appointment_findByIdAndUpdate now id (completionUpdate body) ;;
  ret (successResponse updatedAppointment "Appointment completed successfully").

Definition confirmAppointment (id : ObjectId) : M Response :=
  appointment <- Appointment_findByIdAndUpdate now id
                   (Appointment.set_status Appointment.confirmed) ;;
  appointment <- orReturn appointment (notFoundResponse "Appointment") ;;
  ret (successResponse (Some appointment) "Appointment confirmed successfully").
End Handlers.

(** [deleteAppointment]: the document is deleted by id; a [null] result is
    answered not-found, anything else with a success that carries no
    data. *)
Definition Appointment_findByIdAndDelete (id : ObjectId) : M (option Appointment.t) :=
  fun db =>
    let '(docs, doc) := Appointment.findByIdAndDelete db.(appointments) id in
    (set_appointments docs db, inl doc).

Definition deleteAppointment (id : ObjectId) : M Response :=
  bind (Appointment_findByIdAndDelete id) (fun appointment =>
  bind (orReturn appointment (notFoundResponse "Appointment")) (fun _ =>
  ret (successResponse None "Appointment deleted successfully"))).

End Controller.

(** ** [middleware/validation.js]: the end time of an appointment *)

Module Validation.

(** The [custom] validator of [endTime]: it throws when the body holds a
    start time that the value does not come after, as strings. [true] is
    a pass. *)
Definition endTimeCustom (startTime : option string) (value : string) : bool :=
  negb (Controller.truthyStr startTime
        && match startTime with
           | Some start => JS.le value start
           | None => false
           end).

(** The chain on [endTime]: the HH:MM pattern, then the custom validator;
    the field is in error when either fails. *)
Definition endTime (startTime : option string) (value : string) : bool :=
  Dentist.validTime value && endTimeCustom startTime value.

End Validation.

(** ** [utils/pagination.js] *)

Module Pagination.

(** What [getPaginationParams] reads of the query string: [parseInt] of
    the two parameters ([NaN] when a parameter is absent or does not start
    with a number). *)
Record Query : Type := { query_page : JS.Num; query_limit : JS.Num }.

(** [n || fallback] on a number: [NaN] and [0] are falsy. *)
Definition orDefault (n : JS.Num) (fallback : Z) : Z :=
  match n with
  | JS.Int z => if z =? 0 then fallback else z
  | JS.NaN => fallback
  end.

Record Params : Type := { page : Z; limit : Z; skip : Z }.

Definition getPaginationParams (query : Query) : Params :=
  let page' := Z.max 1 (orDefault query.(query_page) 1) in
  let limit' := Z.min 100 (Z.max 1 (orDefault query.(query_limit) 10)) in
  let skip' := (page' - 1) * limit' in
  {| page := page'; limit := limit'; skip := skip' |}.

Module Meta.
Record t : Type := {
  page : Z;
  limit : Z;
  totalItems : Z;
  totalPages : Z;
  hasNextPage : bool;
  hasPrevPage : bool;
  nextPage : option Z;
  prevPage : option Z
}.
End Meta.

(** [Math.ceil(totalItems / limit)] is written with the floor division of
    [Z]; a [limit] of 0, which makes the quotient infinite or [NaN], is
    outside this model ([applyPagination] never passes one). *)
Definition createPaginationMeta (totalItems page' limit' : Z) : Meta.t :=
  let totalPages' := - ((- totalItems) / limit') in
  {| Meta.page := page';
     Meta.limit := limit';
     Meta.totalItems := totalItems;
     Meta.totalPages := totalPages';
     Meta.hasNextPage := page' <? totalPages';
     Meta.hasPrevPage := 1 <? page';
     Meta.nextPage := if page' <? totalPages' then Some (page' + 1) else None;
     Meta.prevPage := if 1 <? page' then Some (page' - 1) else None |}.

(** [applyPagination(Model, query, filter)] over a collection held as a
    list and a filter held as a predicate: the count, then the documents
    after [skip], at most [limit] of them. *)
Definition applyPagination {A : Type} (docs : list A) (query : Query)
           (filter' : A -> bool) : list A * Meta.t :=
  let params := getPaginationParams query in
  let totalItems := Z.of_nat (List.length (filter filter' docs)) in
  let items :=
    firstn (Z.to_nat params.(limit))
           (skipn (Z.to_nat params.(skip)) (filter filter' docs)) in
  (items, createPaginationMeta totalItems params.(page) params.(limit)).

End Pagination.

(** ** Vocabulary of the specification *)

(** [hasConflict]: the truthiness of what [checkConflict] resolves to, as the
    handlers test it with [if (conflict)]. *)
Definition hasConflict (existingAppointments : Appointment.Collection)
           (practitioner : ObjectId) (date : JS.Date) (s e : string)
           (excludeId : option ObjectId) : bool :=
  Controller.present
    (Appointment.checkConflict existingAppointments practitioner date s e excludeId).

(** An appointment used in the worked scenarios: dentist 7, patient 3, on
    Monday 2024-01-01 (UTC), 10:00 to 10:30. *)
Definition sampleAppointment : Appointment.t :=
  {| Appointment._id := 100%N;
     Appointment.appointmentId := "APT20231220001";
     Appointment.patient := 3%N;
     Appointment.dentist := 7%N;
     Appointment.appointmentDate := 1704067200000;
     Appointment.startTime := "10:00";
     Appointment.endTime := "10:30";
     Appointment.duration := JS.Int 30;
     Appointment.status := Appointment.scheduled;
     Appointment.treatments := [];
     Appointment.cost :=
       {| Appointment.Cost.estimated := Some 80;
          Appointment.Cost.actual := None;
          Appointment.Cost.insuranceCovered := Some 0;
          Appointment.Cost.patientPayment := None |};
     Appointment.cancellation := Appointment.Cancellation.unset;
     Appointment.rescheduling := Appointment.Rescheduling.unset;
     Appointment.createdAt := 1703030400000;
     Appointment.updatedAt := 1703030400000 |}.

(** The number of candidates [start + k * step] that fit before [ruleEnd],
    and their list in increasing [k]: the specification's description of
    what the slot loop emits. *)
Definition slotCount (start ruleEnd slotDuration step : Z) : nat :=
  if start + slotDuration <=? ruleEnd
  then Z.to_nat ((ruleEnd - slotDuration - start) / step + 1)
  else O.

Definition slotStarts (start slotDuration step : Z) (count : nat) : list Z :=
  map (fun k => start + Z.of_nat k * step) (seq 0 count).

(** [computeOpenSlots] is [getAvailableSlots] of the practitioner document. *)
Definition computeOpenSlots := Dentist.getAvailableSlots.

(** The target date lies within an absence, both ends included: calendar
    dates are compared as the [yyyy-mm-dd] strings of their UTC day. *)
Definition withinAbsence (targetDate : JS.Date) (absence : Dentist.TimeOff) : Prop :=
  JS.le (JS.isoDate absence.(Dentist.startDate)) (JS.isoDate targetDate) = true
  /\ JS.le (JS.isoDate targetDate) (JS.isoDate absence.(Dentist.endDate)) = true.

(** A host whose local time is UTC. *)
Definition utc : Z -> bool -> Z := fun _ _ => 0.

(** Monday 2024-01-01, 00:00 UTC. *)
Definition monday : JS.Date := 1704067200000.

Definition mondayRule : Dentist.AvailabilitySlot :=
  {| Dentist.dayOfWeek := 1; Dentist.startTime := "09:00";
     Dentist.endTime := "17:00"; Dentist.isActive := true |}.

(** The practitioner of the scenarios: Monday 09:00 to 17:00, slots of 30
    minutes with a buffer of 15, and the given absences. *)
Definition scenarioDentist (absences : list Dentist.TimeOff) : Dentist.t :=
  {| Dentist._id := 7%N;
     Dentist.schedule :=
       {| Dentist.regularHours := [mondayRule];
          Dentist.timeOff := absences;
          Dentist.consultationDuration := 30;
          Dentist.bufferTime := 15 |};
     Dentist.status := Dentist.active |}.

(** A rendered slot reads as zero-padded HH:MM: five characters, accepted
    by the schema's pattern, and read back as the same minute of the day. *)
Definition wellFormatted (minutes : Z) : bool :=
  (String.length (Dentist.timeString minutes) =? 5)%nat
  && Dentist.validTime (Dentist.timeString minutes)
  && match JS.toMinutes (Dentist.timeString minutes) with
     | JS.Int v => v =? minutes
     | JS.NaN => false
     end.

(** An approved absence over Monday 2024-01-01 alone, and the same request
    not approved. *)
Definition mondayOff (approved : bool) : Dentist.TimeOff :=
  {| Dentist.startDate := monday;
     Dentist.endDate := monday + 3600000;
     Dentist.isApproved := approved |}.

(** The requester passes the ownership check of the handlers: a
    patient-only request must come from the patient of the appointment. *)
Definition permitted (db : Db) (req : Request.t) (appointment : Appointment.t) : bool :=
  negb (req.(Request.patientOnly)
        && Controller.notOwner
             (Patient.findOne db.(patients) req.(Request.user).(Request._id))
             appointment).

(** The sample appointment in another status. *)
Definition sampleIn (status : Appointment.Status) : Appointment.t :=
  Appointment.set_status status sampleAppointment.

(** The sample appointment after a general update moved its end to 11:00:
    [duration] still holds the 30 minutes computed when it was created. *)
Definition staleAppointment : Appointment.t :=
  Appointment.set_endTime "11:00" sampleAppointment.

(** A database holding one appointment, the scenario practitioner and the
    patient of the sample appointment. *)
Definition dbWith (appointment : Appointment.t) : Db :=
  {| appointments := [appointment];
     dentists := [scenarioDentist []];
     patients := [{| Patient._id := 3%N; Patient.userId := 30%N |}] |}.

Definition staffRequest : Request.t :=
  {| Request.user := {| Request._id := 1%N; Request.role := "staff" |};
     Request.patientOnly := false |}.

(** Noon of 2023-12-20 (UTC), the time of the scenario requests. *)
Definition requestTime : JS.Date := 1703073600000.

Definition cancelBody : Controller.CancelBody :=
  {| Controller.cancel_reason := Some "Patient is travelling";
     Controller.cancel_refundAmount := None |}.




(** Moving the sample appointment to the next Monday, 11:00 to 11:30. *)
Definition nextMonday : JS.Date := monday + 7 * JS.msPerDay.

Definition rescheduleBody : Controller.RescheduleBody :=
  {| Controller.newDate := nextMonday;
     Controller.newStartTime := "11:00";
     Controller.newEndTime := "11:30";
     Controller.reschedule_reason := Some "Conflict at work" |}.

(** The practitioner, date and interval an update leaves the appointment
    with, as [updateAppointment] computes them. *)
Definition resultingDentist (updates : Controller.Updates) (a : Appointment.t) : ObjectId :=
  match updates.(Controller.u_dentist) with
  | Some d => d
  | None => a.(Appointment.dentist)
  end.

Definition resultingDate (updates : Controller.Updates) (a : Appointment.t) : JS.Date :=
  match updates.(Controller.u_appointmentDate) with
  | Some d => d
  | None => a.(Appointment.appointmentDate)
  end.

Definition resultingStart (updates : Controller.Updates) (a : Appointment.t) : string :=
  Controller.orElse updates.(Controller.u_startTime) a.(Appointment.startTime).

Definition resultingEnd (updates : Controller.Updates) (a : Appointment.t) : string :=
  Controller.orElse updates.(Controller.u_endTime) a.(Appointment.endTime).

(** C4 as the specification words it: an accepted update that touches the
    date, a time or the practitioner has passed the availability predicate
    and the conflict check for what it leaves the appointment with. *)
Definition update_revalidates_like_reschedule : Prop :=
  forall LocalTZA now req id updates db db' data message appointment,
    Appointment.findById db.(appointments) id = Some appointment ->
    Controller.touchesTime updates = true
    \/ Controller.present updates.(Controller.u_dentist) = true ->
    Controller.run (Controller.updateAppointment LocalTZA now req id updates) db =
    (db', Controller.Sent (Controller.successResponse data message)) ->
    (exists practitioner,
        find (fun d => (d.(Dentist._id) =? resultingDentist updates appointment)%N)
             db.(dentists) = Some practitioner
        /\ Dentist.isAvailableAt LocalTZA practitioner (resultingDate updates appointment)
             (resultingStart updates appointment) (resultingEnd updates appointment) = true)
    /\ hasConflict db.(appointments) (resultingDentist updates appointment)
         (resultingDate updates appointment) (resultingStart updates appointment)
         (resultingEnd updates appointment) (Some id) = false.

Definition noUpdates : Controller.Updates :=
  {| Controller.u_patient := None; Controller.u_dentist := None;
     Controller.u_appointmentDate := None; Controller.u_startTime := None;
     Controller.u_endTime := None; Controller.u_duration := None;
     Controller.u_status := None; Controller.u_treatments := None;
     Controller.u_cost := None; Controller.u_cancellation := None;
     Controller.u_rescheduling := None; Controller.u_otherKeys := [] |}.

(** An update of the two times only. *)
Definition moveTo (startTime endTime : string) : Controller.Updates :=
  {| Controller.u_patient := None; Controller.u_dentist := None;
     Controller.u_appointmentDate := None; Controller.u_startTime := Some startTime;
     Controller.u_endTime := Some endTime; Controller.u_duration := None;
     Controller.u_status := None; Controller.u_treatments := None;
     Controller.u_cost := None; Controller.u_cancellation := None;
     Controller.u_rescheduling := None; Controller.u_otherKeys := [] |}.

(** An update of the end time only. *)
Definition extendTo (endTime : string) : Controller.Updates :=
  {| Controller.u_patient := None; Controller.u_dentist := None;
     Controller.u_appointmentDate := None; Controller.u_startTime := None;
     Controller.u_endTime := Some endTime; Controller.u_duration := None;
     Controller.u_status := None; Controller.u_treatments := None;
     Controller.u_cost := None; Controller.u_cancellation := None;
     Controller.u_rescheduling := None; Controller.u_otherKeys := [] |}.

(** The same update naming the practitioner as well. *)
Definition moveToWith (dentistId : ObjectId) (startTime endTime : string)
  : Controller.Updates :=
  {| Controller.u_patient := None; Controller.u_dentist := Some dentistId;
     Controller.u_appointmentDate := None; Controller.u_startTime := Some startTime;
     Controller.u_endTime := Some endTime; Controller.u_duration := None;
     Controller.u_status := None; Controller.u_treatments := None;
     Controller.u_cost := None; Controller.u_cancellation := None;
     Controller.u_rescheduling := None; Controller.u_otherKeys := [] |}.

(** A leave from 2023-12-30 to 2024-01-02, approved. *)
Definition newYearLeave : Dentist.TimeOff :=
  {| Dentist.startDate := monday - 2 * JS.msPerDay;
     Dentist.endDate := monday + JS.msPerDay;
     Dentist.isApproved := true |}.

(** A time the schema accepts that is written with a two-digit hour. *)
Definition paddedTime (s : string) : bool :=
  Dentist.validTime s && (String.length s =? 5)%nat.

(** A weekly rule whose two times the schema accepts, and one whose times
    are also written with two-digit hours. *)
Definition validRule (rule : Dentist.AvailabilitySlot) : bool :=
  Dentist.validTime rule.(Dentist.startTime) && Dentist.validTime rule.(Dentist.endTime).

Definition paddedRule (rule : Dentist.AvailabilitySlot) : bool :=
  paddedTime rule.(Dentist.startTime) && paddedTime rule.(Dentist.endTime).

(** The bounds of the schema on the scheduling policy. *)
Definition withinPolicy (this : Dentist.t) : Prop :=
  15 <= this.(Dentist.schedule).(Dentist.consultationDuration)
  /\ 0 <= this.(Dentist.schedule).(Dentist.bufferTime).

(** The rule applies on the day of [date]: the test of the [find] callback. *)
Definition appliesOn (LocalTZA : Z -> bool -> Z) (date : JS.Date)
           (rule : Dentist.AvailabilitySlot) : bool :=
  (rule.(Dentist.dayOfWeek) =? JS.getDay LocalTZA date) && rule.(Dentist.isActive).

(** The practitioner with other weekly rules. *)
Definition withRegularHours (rules : list Dentist.AvailabilitySlot) (this : Dentist.t)
  : Dentist.t :=
  {| Dentist._id := this.(Dentist._id);
     Dentist.schedule :=
       {| Dentist.regularHours := rules;
          Dentist.timeOff := this.(Dentist.schedule).(Dentist.timeOff);
          Dentist.consultationDuration :=
            this.(Dentist.schedule).(Dentist.consultationDuration);
          Dentist.bufferTime := this.(Dentist.schedule).(Dentist.bufferTime) |};
     Dentist.status := this.(Dentist.status) |}.

(** An appointment the conflict query takes into account: neither
    cancelled nor no-show. *)
Definition blocks (a : Appointment.t) : bool :=
  negb (existsb (Appointment.Status_eqb a.(Appointment.status))
                [Appointment.cancelled; Appointment.no_show]).

(** Two appointments claim the same practitioner at overlapping times of the
    same date, by the comparison the conflict query makes. *)
Definition overlap (a b : Appointment.t) : bool :=
  (a.(Appointment.dentist) =? b.(Appointment.dentist))%N
  && (a.(Appointment.appointmentDate) =? b.(Appointment.appointmentDate))
  && JS.lt a.(Appointment.startTime) b.(Appointment.endTime)
  && JS.gt a.(Appointment.endTime) b.(Appointment.startTime).

(** No two distinct appointments that count overlap. *)
Definition noDoubleBooking (docs : Appointment.Collection) : Prop :=
  forall a b,
    In a docs -> In b docs ->
    a.(Appointment._id) <> b.(Appointment._id) ->
    blocks a = true -> blocks b = true ->
    overlap a b = false.

(** The minute an HH:MM string reads as (0 when it does not read). *)
Definition minuteOf (time : string) : Z :=
  match JS.toMinutes time with
  | JS.Int m => m
  | JS.NaN => 0
  end.

Definition isSuccess (o : Controller.Outcome) : bool :=
  match o with
  | Controller.Sent (Controller.successResponse _ _) => true
  | _ => false
  end.


(** A request made by the patient of the sample appointment. *)
Definition patientRequest : Request.t :=
  {| Request.user := {| Request._id := 30%N; Request.role := "patient" |};
     Request.patientOnly := true |}.

(** A second appointment of the same practitioner, later that Monday. *)
Definition laterAppointment : Appointment.t :=
  Appointment.set_endTime "11:30"
    (Appointment.set_startTime "11:00"
       {| Appointment._id := 101%N;
          Appointment.appointmentId := "APT20231220002";
          Appointment.patient := 4%N;
          Appointment.dentist := 7%N;
          Appointment.appointmentDate := monday;
          Appointment.startTime := "";
          Appointment.endTime := "";
          Appointment.duration := JS.Int 30;
          Appointment.status := Appointment.confirmed;
          Appointment.treatments := [];
          Appointment.cost := sampleAppointment.(Appointment.cost);
          Appointment.cancellation := Appointment.Cancellation.unset;
          Appointment.rescheduling := Appointment.Rescheduling.unset;
          Appointment.createdAt := requestTime;
          Appointment.updatedAt := requestTime |}).

Definition twoAppointments : Db :=
  {| appointments := [sampleAppointment; laterAppointment];
     dentists := [scenarioDentist []];
     patients := [{| Patient._id := 3%N; Patient.userId := 30%N |}] |}.

(** ** Properties *)

(** *** The model on known values *)

Example isoDate_new_year : JS.isoDate monday = "2024-01-01".
Proof. reflexivity. Qed.

Example isoDate_leap_day : JS.isoDate (monday + 59 * JS.msPerDay) = "2024-02-29".
Proof. reflexivity. Qed.

Example isoDate_before_epoch : JS.isoDate (-1) = "1969-12-31".
Proof. reflexivity. Qed.

Example getDay_of_monday : JS.getDay utc monday = 1.
Proof. reflexivity. Qed.

Example getDay_east_of_utc :
  JS.getDay (fun _ _ => 3600000) (monday - 1800000) = 1
  /\ JS.getDay utc (monday - 1800000) = 0.
Proof. split; reflexivity. Qed.

Example split_hh_mm : JS.split ":" "09:45" = ["09"; "45"].
Proof. reflexivity. Qed.

Example toMinutes_values :
  JS.toMinutes "9:05" = JS.Int 545
  /\ JS.toMinutes "17:00" = JS.Int 1020
  /\ JS.toMinutes "noon" = JS.NaN.
Proof. repeat split; reflexivity. Qed.

Example timeString_values :
  Dentist.timeString 545 = "09:05" /\ Dentist.timeString 1035 = "17:15".
Proof. split; reflexivity. Qed.

Example validTime_values :
  Dentist.validTime "9:00" = true /\ Dentist.validTime "23:59" = true
  /\ Dentist.validTime "24:00" = false /\ Dentist.validTime "09:60" = false.
Proof. repeat split; reflexivity. Qed.

Example scenario_A_all_slots :
  Dentist.getAvailableSlots utc 12 (scenarioDentist []) monday =
  Some ["09:00"; "09:45"; "10:30"; "11:15"; "12:00"; "12:45"; "13:30"; "14:15";
        "15:00"; "15:45"; "16:30"].
Proof. reflexivity. Qed.

Example withinAbsence_ends_included :
  ~ withinAbsence (monday - 2 * JS.msPerDay - 1) newYearLeave
  /\ withinAbsence (monday - 2 * JS.msPerDay) newYearLeave
  /\ withinAbsence monday newYearLeave
  /\ withinAbsence (monday + 2 * JS.msPerDay - 1) newYearLeave
  /\ ~ withinAbsence (monday + 2 * JS.msPerDay) newYearLeave.
Proof.
  unfold withinAbsence. repeat split; try reflexivity.
  - intros [H _]. vm_compute in H. discriminate.
  - intros [_ H]. vm_compute in H. discriminate.
Qed.

(** *** Strings and statuses *)




Lemma Status_eqb_eq (a b : Appointment.Status) :
  Appointment.Status_eqb a b = true <-> a = b.
Proof. destruct a, b; simpl; split; intro H; congruence. Qed.

Lemma active_status (a : Appointment.Status) :
  negb (existsb (Appointment.Status_eqb a) [Appointment.cancelled; Appointment.no_show]) = true
  <-> a <> Appointment.cancelled /\ a <> Appointment.no_show.
Proof.
  destruct a; simpl; split; intro H; try congruence;
    try (split; congruence); destruct H; congruence.
Qed.

(** *** The conflict detector *)

Lemma conflictQuery_spec practitioner date s e excludeId (a : Appointment.t) :
  Appointment.conflictQuery practitioner date s e excludeId a = true <->
  a.(Appointment.dentist) = practitioner
  /\ a.(Appointment.appointmentDate) = date
  /\ a.(Appointment.status) <> Appointment.cancelled
  /\ a.(Appointment.status) <> Appointment.no_show
  /\ excludeId <> Some a.(Appointment._id)
  /\ JS.lt a.(Appointment.startTime) e = true
  /\ JS.gt a.(Appointment.endTime) s = true.
Proof.
  unfold Appointment.conflictQuery.
  rewrite !andb_true_iff, N.eqb_eq, Z.eqb_eq, active_status.
  assert (Hex : match excludeId with
                | Some id => negb (a.(Appointment._id) =? id)%N
                | None => true
                end = true <-> excludeId <> Some a.(Appointment._id)).
  { destruct excludeId as [id|]; [|split; [discriminate|reflexivity]].
    rewrite negb_true_iff, N.eqb_neq. split; intro H; congruence. }
  rewrite Hex. tauto.
Qed.



(** *** The slot loop *)

Section SlotLoop.
Variables duration endMinutes totalSlotTime : Z.

Let fits (minutes : Z) : Prop := minutes + duration <= endMinutes.

Lemma slotStarts_succ (start : Z) (n : nat) :
  slotStarts start duration totalSlotTime (S n) =
  start :: slotStarts (start + totalSlotTime) duration totalSlotTime n.
Proof.
  unfold slotStarts. cbn [seq map]. rewrite <- seq_shift, map_map.
  f_equal; [lia|]. apply map_ext. intro k. lia.
Qed.

(** [n] candidates fit and the next does not: the loop makes exactly [n]
    iterations and leaves on its [n + 1]-st test. *)
Lemma slotLoop_exact (n : nat) :
  forall (fuel : nat) (minutes : Z) (slots : list string),
    (forall k : nat, (k < n)%nat -> fits (minutes + Z.of_nat k * totalSlotTime)) ->
    ~ fits (minutes + Z.of_nat n * totalSlotTime) ->
    (n < fuel)%nat ->
    Dentist.slotLoop fuel duration endMinutes totalSlotTime minutes slots =
    Some (minutes + Z.of_nat n * totalSlotTime,
          (slots ++ map Dentist.timeString
                        (slotStarts minutes duration totalSlotTime n))%list).
Proof.
  unfold fits. induction n as [|n IH]; intros fuel minutes slots Hfit Hstop Hfuel;
    destruct fuel as [|fuel]; try lia; simpl Dentist.slotLoop.
  - replace (minutes + Z.of_nat 0 * totalSlotTime) with minutes in * by lia.
    destruct (Z.leb_spec (minutes + duration) endMinutes); [lia|].
    unfold slotStarts. simpl. now rewrite app_nil_r.
  - pose proof (Hfit O ltac:(lia)) as H0.
    replace (minutes + Z.of_nat 0 * totalSlotTime) with minutes in H0 by lia.
    destruct (Z.leb_spec (minutes + duration) endMinutes); [|lia].
    rewrite (IH fuel (minutes + totalSlotTime)).
    + rewrite slotStarts_succ. cbn [map]. rewrite <- app_assoc. cbn [app].
      do 2 f_equal. lia.
    + intros k Hk. specialize (Hfit (S k) ltac:(lia)).
      replace (minutes + totalSlotTime + Z.of_nat k * totalSlotTime)
        with (minutes + Z.of_nat (S k) * totalSlotTime) by lia.
      exact Hfit.
    + replace (minutes + totalSlotTime + Z.of_nat n * totalSlotTime)
        with (minutes + Z.of_nat (S n) * totalSlotTime) by lia.
      exact Hstop.
    + lia.
Qed.

(** While candidates keep fitting the loop keeps going. *)
Lemma slotLoop_running (n : nat) :
  forall (fuel : nat) (minutes : Z) (slots : list string),
    (forall k : nat, (k < n)%nat -> fits (minutes + Z.of_nat k * totalSlotTime)) ->
    (fuel <= n)%nat ->
    Dentist.slotLoop fuel duration endMinutes totalSlotTime minutes slots = None.
Proof.
  unfold fits. induction n as [|n IH]; intros fuel minutes slots Hfit Hfuel;
    destruct fuel as [|fuel]; try lia; simpl Dentist.slotLoop; try reflexivity.
  pose proof (Hfit O ltac:(lia)) as H0.
  replace (minutes + Z.of_nat 0 * totalSlotTime) with minutes in H0 by lia.
  destruct (Z.leb_spec (minutes + duration) endMinutes); [|lia].
  apply IH; [|lia].
  intros k Hk. specialize (Hfit (S k) ltac:(lia)).
  replace (minutes + totalSlotTime + Z.of_nat k * totalSlotTime)
    with (minutes + Z.of_nat (S k) * totalSlotTime) by lia.
  exact Hfit.
Qed.

(** With a positive step, [slotCount] is the index of the first candidate
    that does not fit. *)
Lemma slotCount_spec (start : Z) (k : nat) :
  0 < totalSlotTime ->
  (k < slotCount start endMinutes duration totalSlotTime)%nat <->
  fits (start + Z.of_nat k * totalSlotTime).
Proof.
  intro Hstep. unfold fits, slotCount.
  destruct (Z.leb_spec (start + duration) endMinutes) as [Hle|Hgt].
  - set (room := endMinutes - duration - start).
    assert (Hroom : 0 <= room) by (unfold room; lia).
    pose proof (Z.div_pos room totalSlotTime Hroom Hstep) as Hq.
    pose proof (Z.mul_div_le room totalSlotTime Hstep) as Hlo.
    pose proof (Z.mul_succ_div_gt room totalSlotTime Hstep) as Hhi.
    split; intro H.
    + assert (Z.of_nat k <= room / totalSlotTime) by lia.
      assert (Z.of_nat k * totalSlotTime <= room) by nia.
      unfold room in *. lia.
    + assert (Z.of_nat k * totalSlotTime <= room) by (unfold room; lia).
      assert (Z.of_nat k < room / totalSlotTime + 1) by nia.
      lia.
  - split; [lia|]. intro H. nia.
Qed.
End SlotLoop.


(** Without a positive step the loop never leaves once a candidate fits:
    the policy's bounds are what makes it stop. *)
Lemma slotLoop_diverges (duration endMinutes totalSlotTime minutes : Z)
      (fuel : nat) (slots : list string) :
  totalSlotTime <= 0 ->
  minutes + duration <= endMinutes ->
  Dentist.slotLoop fuel duration endMinutes totalSlotTime minutes slots = None.
Proof.
  intros Hstep Hfit. apply slotLoop_running with (n := fuel); [|lia].
  intros k _. nia.
Qed.

(** *** HH:MM strings *)

Lemma digit_range (c : ascii) (d : Z) : JS.digit c = Some d -> 0 <= d <= 9.
Proof.
  unfold JS.digit.
  destruct (Z.leb_spec 48 (Z.of_N (N_of_ascii c)));
    destruct (Z.leb_spec (Z.of_N (N_of_ascii c)) 57); simpl; intro Hd;
    inversion Hd; lia.
Qed.

Lemma digit_not_colon (c : ascii) (d : Z) :
  JS.digit c = Some d -> Ascii.eqb c ":" = false.
Proof.
  intro H. apply Ascii.eqb_neq. intro Hc. subst c. vm_compute in H. discriminate.
Qed.

Lemma isDigit_digit (c : ascii) :
  Dentist.isDigit c = true -> exists d, JS.digit c = Some d.
Proof.
  unfold Dentist.isDigit. destruct (JS.digit c) as [d|]; [now exists d | discriminate].
Qed.

Lemma digitBelow_digit (bound : Z) (c : ascii) :
  Dentist.digitBelow bound c = true -> exists d, JS.digit c = Some d /\ d <= bound.
Proof.
  unfold Dentist.digitBelow. destruct (JS.digit c) as [d|]; [|discriminate].
  intro H. exists d. split; [reflexivity | now apply Z.leb_le].
Qed.

Lemma validMinutes_split (s : string) :
  Dentist.validMinutes s = true ->
  exists m, JS.split ":" s = [s] /\ JS.Number s = JS.Int m /\ 0 <= m <= 59.
Proof.
  destruct s as [|m1 [|m2 [|]]]; simpl; try discriminate.
  rewrite andb_true_iff. intros [H1 H2].
  apply digitBelow_digit in H1. destruct H1 as (d1 & Hd1 & Hle).
  apply isDigit_digit in H2. destruct H2 as (d2 & Hd2).
  pose proof (digit_range _ _ Hd1). pose proof (digit_range _ _ Hd2).
  rewrite (digit_not_colon _ _ Hd1), (digit_not_colon _ _ Hd2).
  exists (10 * d1 + d2). unfold JS.Number. cbn [JS.digits].
  rewrite Hd1, Hd2. split; [reflexivity|]. split; [f_equal; lia | lia].
Qed.

(** A time the schema accepts reads as a minute of the day. *)
Lemma validTime_toMinutes (s : string) :
  Dentist.validTime s = true ->
  exists m, JS.toMinutes s = JS.Int m /\ 0 <= m < 1440.
Proof.
  destruct s as [|h1 [|c rest]]; simpl; try discriminate.
  destruct (Ascii.eqb c ":") eqn:Hc.
  - rewrite andb_true_iff. intros [Hh Hm].
    apply isDigit_digit in Hh. destruct Hh as (dh & Hdh).
    pose proof (digit_range _ _ Hdh).
    apply validMinutes_split in Hm. destruct Hm as (m & Hsplit & Hnum & Hrange).
    exists (dh * 60 + m). split; [|lia].
    unfold JS.toMinutes, JS.hourMinute. cbn [JS.split].
    rewrite (digit_not_colon _ _ Hdh), Hc, Hsplit. cbn [map].
    rewrite Hnum. unfold JS.Number. cbn [JS.digits]. rewrite Hdh. simpl.
    f_equal.
  - destruct rest as [|colon rest]; [discriminate|].
    rewrite !andb_true_iff. intros [[Hcolon Hm] Hh].
    apply validMinutes_split in Hm. destruct Hm as (m & Hsplit & Hnum & Hrange).
    assert (Hhour : exists d1 d2, JS.digit h1 = Some d1 /\ JS.digit c = Some d2
                                  /\ 0 <= 10 * d1 + d2 <= 23).
    { apply orb_true_iff in Hh. destruct Hh as [Hh|Hh];
        apply andb_true_iff in Hh; destruct Hh as [Ha Hb].
      - apply digitBelow_digit in Ha. destruct Ha as (d1 & Hd1 & Hle).
        apply isDigit_digit in Hb. destruct Hb as (d2 & Hd2).
        pose proof (digit_range _ _ Hd1). pose proof (digit_range _ _ Hd2).
        exists d1, d2. repeat split; trivial; lia.
      - apply Ascii.eqb_eq in Ha. subst h1.
        apply digitBelow_digit in Hb. destruct Hb as (d2 & Hd2 & Hle).
        pose proof (digit_range _ _ Hd2).
        exists 2, d2. repeat split; trivial; lia. }
    destruct Hhour as (d1 & d2 & Hd1 & Hd2 & Hhr).
    exists ((10 * d1 + d2) * 60 + m). split; [|lia].
    unfold JS.toMinutes, JS.hourMinute. cbn [JS.split].
    rewrite (digit_not_colon _ _ Hd1), Hc, Hcolon, Hsplit. cbn [map].
    rewrite Hnum. unfold JS.Number. cbn [JS.digits]. rewrite Hd1, Hd2. simpl.
    f_equal.
Qed.

Lemma minutes_wellFormatted_all :
  forallb wellFormatted (map Z.of_nat (seq 0 1440)) = true.
Proof. vm_compute. reflexivity. Qed.

(** Every minute of the day is rendered as zero-padded HH:MM. *)
Lemma timeString_wellFormatted (minutes : Z) :
  0 <= minutes < 1440 -> wellFormatted minutes = true.
Proof.
  intro H. pose proof minutes_wellFormatted_all as Hall.
  rewrite forallb_forall in Hall. apply Hall.
  apply in_map_iff. exists (Z.to_nat minutes). split; [lia|].
  apply in_seq. lia.
Qed.

(** *** The availability calculator *)

Lemma hasTimeOff_iff (this : Dentist.t) (targetDate : JS.Date) :
  Dentist.hasTimeOff this targetDate = true <->
  exists absence,
    In absence this.(Dentist.schedule).(Dentist.timeOff)
    /\ absence.(Dentist.isApproved) = true
    /\ withinAbsence targetDate absence.
Proof.
  unfold Dentist.hasTimeOff, withinAbsence. rewrite existsb_exists.
  split; intros (absence & Hin & H); exists absence; split; trivial;
    unfold Dentist.coversDate, JS.ge in *;
    rewrite !andb_true_iff in *; tauto.
Qed.

Lemma hasTimeOff_approved_only (this this' : Dentist.t) (targetDate : JS.Date) :
  filter Dentist.isApproved this.(Dentist.schedule).(Dentist.timeOff) =
  filter Dentist.isApproved this'.(Dentist.schedule).(Dentist.timeOff) ->
  Dentist.hasTimeOff this targetDate = Dentist.hasTimeOff this' targetDate.
Proof.
  intro Hsame.
  assert (Hone : forall l,
    existsb (Dentist.coversDate (JS.isoDate targetDate)) l =
    existsb (Dentist.coversDate (JS.isoDate targetDate)) (filter Dentist.isApproved l)).
  { induction l as [|x l IH]; [reflexivity|]. simpl.
    destruct (Dentist.isApproved x) eqn:Hx; simpl; rewrite IH; [reflexivity|].
    unfold Dentist.coversDate at 1. rewrite Hx, andb_false_r. reflexivity. }
  unfold Dentist.hasTimeOff.
  rewrite (Hone this.(Dentist.schedule).(Dentist.timeOff)),
          (Hone this'.(Dentist.schedule).(Dentist.timeOff)), Hsame.
  reflexivity.
Qed.



(** C7. A target date within an approved absence, ends included, yields no
    slots whatever the weekly rules and the policy are; absences that are
    not approved change neither the slots nor the availability predicate. *)
Theorem approved_absence_blocks :
  (forall LocalTZA fuel (this : Dentist.t) (targetDate : JS.Date) absence,
      In absence this.(Dentist.schedule).(Dentist.timeOff) ->
      absence.(Dentist.isApproved) = true ->
      withinAbsence targetDate absence ->
      computeOpenSlots LocalTZA fuel this targetDate = Some [])
  /\ (forall LocalTZA fuel (this this' : Dentist.t) (targetDate : JS.Date) startTime endTime,
        this.(Dentist.schedule).(Dentist.regularHours) =
        this'.(Dentist.schedule).(Dentist.regularHours) ->
        this.(Dentist.schedule).(Dentist.consultationDuration) =
        this'.(Dentist.schedule).(Dentist.consultationDuration) ->
        this.(Dentist.schedule).(Dentist.bufferTime) =
        this'.(Dentist.schedule).(Dentist.bufferTime) ->
        filter Dentist.isApproved this.(Dentist.schedule).(Dentist.timeOff) =
        filter Dentist.isApproved this'.(Dentist.schedule).(Dentist.timeOff) ->
        computeOpenSlots LocalTZA fuel this targetDate =
        computeOpenSlots LocalTZA fuel this' targetDate
        /\ Dentist.isAvailableAt LocalTZA this targetDate startTime endTime =
           Dentist.isAvailableAt LocalTZA this' targetDate startTime endTime).
Proof.
  split.
  - intros LocalTZA fuel this targetDate absence Hin Happ Hw.
    assert (Hoff : Dentist.hasTimeOff this targetDate = true).
    { apply hasTimeOff_iff. now exists absence. }
    unfold computeOpenSlots, Dentist.getAvailableSlots. rewrite Hoff.
    now destruct (Dentist.findRegularHours LocalTZA this targetDate).
  - intros LocalTZA fuel this this' targetDate startTime endTime Hrules Hdur Hbuf Happ.
    pose proof (hasTimeOff_approved_only this this' targetDate Happ) as Hoff.
    unfold computeOpenSlots, Dentist.getAvailableSlots, Dentist.isAvailableAt,
      Dentist.findRegularHours.
    rewrite Hrules, Hdur, Hbuf, Hoff. split; reflexivity.
Qed.

(** C7 at Scenario B (the absence covers the Monday, asked at noon), and at
    the scenario practitioner with and without the unapproved request. *)
Lemma approved_absence_blocks_witness :
  computeOpenSlots utc 0 (scenarioDentist [mondayOff true]) (monday + 43200000) = Some []
  /\ computeOpenSlots utc 20 (scenarioDentist [mondayOff false]) monday =
     computeOpenSlots utc 20 (scenarioDentist []) monday
  /\ Dentist.isAvailableAt utc (scenarioDentist [mondayOff false]) monday "09:00" "09:30" =
     Dentist.isAvailableAt utc (scenarioDentist []) monday "09:00" "09:30".
Proof.
  split.
  - apply (proj1 approved_absence_blocks utc O (scenarioDentist [mondayOff true])
             (monday + 43200000) (mondayOff true)).
    + left. reflexivity.
    + reflexivity.
    + split; reflexivity.
  - apply (proj2 approved_absence_blocks utc 20%nat (scenarioDentist [mondayOff false])
             (scenarioDentist []) monday "09:00" "09:30"); reflexivity.
Defined.

(** C8. Under the policy's bounds the step is positive and the slot loop
    stops: it makes one iteration per fitting candidate, is still running
    before that, and leaves exactly when the next candidate would end after
    closing time; so [getAvailableSlots] returns for every practitioner whose
    policy meets the bounds. *)
Theorem slotLoop_terminates :
  (forall slotDuration buffer ruleStart ruleEnd,
      15 <= slotDuration ->
      0 <= buffer ->
      let step := slotDuration + buffer in
      let n := slotCount ruleStart ruleEnd slotDuration step in
      0 < step
      /\ (forall fuel slots, (n < fuel)%nat ->
            Dentist.slotLoop fuel slotDuration ruleEnd step ruleStart slots =
            Some (ruleStart + Z.of_nat n * step,
                  (slots ++ map Dentist.timeString
                                (slotStarts ruleStart slotDuration step n))%list))
      /\ (forall fuel slots, (fuel <= n)%nat ->
            Dentist.slotLoop fuel slotDuration ruleEnd step ruleStart slots = None)
      /\ ruleEnd < ruleStart + Z.of_nat n * step + slotDuration
      /\ (forall k : nat, (k < n)%nat ->
            ruleStart + Z.of_nat k * step + slotDuration <= ruleEnd)
      /\ (forall k : nat,
            ruleStart + Z.of_nat k * step < ruleStart + Z.of_nat (S k) * step))
  /\ (forall LocalTZA (this : Dentist.t) (date : JS.Date),
        15 <= this.(Dentist.schedule).(Dentist.consultationDuration) ->
        0 <= this.(Dentist.schedule).(Dentist.bufferTime) ->
        exists enough, forall fuel, (enough <= fuel)%nat ->
          exists slots, Dentist.getAvailableSlots LocalTZA fuel this date = Some slots).
Proof.
  assert (Hloop : forall slotDuration buffer ruleStart ruleEnd,
    15 <= slotDuration -> 0 <= buffer ->
    forall fuel slots,
      (slotCount ruleStart ruleEnd slotDuration (slotDuration + buffer) < fuel)%nat ->
      Dentist.slotLoop fuel slotDuration ruleEnd (slotDuration + buffer) ruleStart slots =
      Some (ruleStart
            + Z.of_nat (slotCount ruleStart ruleEnd slotDuration (slotDuration + buffer))
              * (slotDuration + buffer),
            (slots ++ map Dentist.timeString
               (slotStarts ruleStart slotDuration (slotDuration + buffer)
                  (slotCount ruleStart ruleEnd slotDuration (slotDuration + buffer))))%list)).
  { intros slotDuration buffer ruleStart ruleEnd Hdur Hbuf fuel slots Hfuel.
    assert (Hstep : 0 < slotDuration + buffer) by lia.
    apply slotLoop_exact; [| |exact Hfuel].
    - intros k Hk. now apply (slotCount_spec slotDuration ruleEnd).
    - intro Hfit. apply (slotCount_spec slotDuration ruleEnd) in Hfit; lia. }
  split.
  - intros slotDuration buffer ruleStart ruleEnd Hdur Hbuf. cbv zeta.
    assert (Hstep : 0 < slotDuration + buffer) by lia.
    split; [exact Hstep|]. split; [now apply Hloop|].
    split; [|split; [|split]].
    + intros fuel slots Hfuel. apply slotLoop_running with (n := slotCount ruleStart ruleEnd slotDuration (slotDuration + buffer)); [|exact Hfuel].
      intros k Hk. now apply (slotCount_spec slotDuration ruleEnd).
    + destruct (Z.le_gt_cases
                  (ruleStart
                   + Z.of_nat (slotCount ruleStart ruleEnd slotDuration (slotDuration + buffer))
                     * (slotDuration + buffer) + slotDuration) ruleEnd) as [Hfit|Hgt];
        [|lia].
      apply (slotCount_spec slotDuration ruleEnd) in Hfit; lia.
    + intros k Hk. now apply (slotCount_spec slotDuration ruleEnd).
    + intro k. nia.
  - intros LocalTZA this date Hdur Hbuf.
    unfold Dentist.getAvailableSlots.
    destruct (Dentist.findRegularHours LocalTZA this date) as [rule|];
      [|exists O; intros; now exists []].
    destruct (Dentist.hasTimeOff this date); [exists O; intros; now exists []|].
    destruct (JS.toMinutes rule.(Dentist.startTime)) as [ruleStart|];
      [|exists O; intros; now exists []].
    destruct (JS.toMinutes rule.(Dentist.endTime)) as [ruleEnd|];
      [|exists O; intros; now exists []].
    eexists (S _). intros fuel Hfuel.
    rewrite (Hloop _ _ ruleStart ruleEnd Hdur Hbuf fuel []) by exact Hfuel.
    simpl. eauto.
Qed.

(** C8 at the scenario policy (30 + 15 minutes) over 09:00 to 17:00: eleven
    iterations, and the loop variable leaves at 17:15. *)
Lemma slotLoop_terminates_witness :
  Dentist.slotLoop 12 30 1020 45 540 [] =
  Some (1035, map Dentist.timeString (slotStarts 540 30 45 11))
  /\ Dentist.slotLoop 11 30 1020 45 540 [] = None.
Proof.
  pose proof (proj1 slotLoop_terminates 30 15 540 1020 ltac:(lia) ltac:(lia)) as H.
  cbv zeta in H. destruct H as (_ & Hrun & Hcut & _).
  split.
  - apply (Hrun 12%nat []). vm_compute. lia.
  - apply (Hcut 11%nat []). vm_compute. lia.
Defined.

(** *** The stored collection *)

Lemma findById_id (docs : Appointment.Collection) (id : ObjectId) (a : Appointment.t) :
  Appointment.findById docs id = Some a -> a.(Appointment._id) = id.
Proof.
  unfold Appointment.findById. intro H. apply find_some in H.
  now apply N.eqb_eq.
Qed.

Lemma findById_store (docs : Appointment.Collection) (id : ObjectId)
      (a doc : Appointment.t) :
  Appointment.findById docs id = Some a ->
  doc.(Appointment._id) = id ->
  Appointment.findById (Appointment.store docs doc) id = Some doc.
Proof.
  unfold Appointment.findById, Appointment.store. intros Hfind Hid. subst id.
  induction docs as [|x docs IH]; simpl in *; [discriminate|].
  destruct (N.eqb_spec x.(Appointment._id) doc.(Appointment._id)) as [Heq|Hne].
  - now rewrite N.eqb_refl.
  - destruct (N.eqb_spec x.(Appointment._id) doc.(Appointment._id)); [contradiction|].
    now apply IH.
Qed.

Lemma findById_store_other (docs : Appointment.Collection) (id : ObjectId)
      (doc : Appointment.t) :
  doc.(Appointment._id) <> id ->
  Appointment.findById (Appointment.store docs doc) id = Appointment.findById docs id.
Proof.
  unfold Appointment.findById, Appointment.store. intro Hne.
  induction docs as [|x docs IH]; simpl; [reflexivity|].
  destruct (N.eqb_spec x.(Appointment._id) doc.(Appointment._id)) as [Heq|Hne'].
  - destruct (N.eqb_spec doc.(Appointment._id) id); [contradiction|].
    destruct (N.eqb_spec x.(Appointment._id) id); [congruence|]. exact IH.
  - destruct (N.eqb_spec x.(Appointment._id) id); [reflexivity|exact IH].
Qed.

Lemma set_appointments_same (db : Db) : set_appointments db.(appointments) db = db.
Proof. now destruct db. Qed.

(** *** Cancel *)

(** C6. For a requester who passes the ownership check, cancelling an
    appointment that is already cancelled, or completed, is answered with
    the 400 error of that case, and the database, hence the appointment and
    its cancellation record, is what it was. *)
Theorem cancel_rejected_when_terminal
        LocalTZA now (req : Request.t) (id : ObjectId) (body : Controller.CancelBody)
        (db : Db) (appointment : Appointment.t) :
  Appointment.findById db.(appointments) id = Some appointment ->
  permitted db req appointment = true ->
  appointment.(Appointment.status) = Appointment.cancelled
  \/ appointment.(Appointment.status) = Appointment.completed ->
  Controller.run (Controller.cancelAppointment LocalTZA now req id body) db =
  (db, Controller.Sent
         (Controller.errorResponse
            (if Appointment.Status_eqb appointment.(Appointment.status) Appointment.cancelled
             then "Appointment is already cancelled"
             else "Cannot cancel completed appointment") 400))
  /\ Appointment.findById db.(appointments) id = Some appointment.
Proof.
  intros Hfind Hperm Hstatus. split; [|exact Hfind].
  unfold permitted in Hperm.
  unfold Controller.run, Controller.cancelAppointment, Controller.bind,
    Controller.Appointment_findById, Controller.orReturn, Controller.ret,
    Controller.Patient_findOne, Controller.when, Controller.respond.
  rewrite Hfind.
  destruct (Request.patientOnly req); simpl in Hperm.
  - apply negb_true_iff in Hperm. rewrite Hperm.
    destruct Hstatus as [Hs|Hs]; rewrite Hs; reflexivity.
  - destruct Hstatus as [Hs|Hs]; rewrite Hs; reflexivity.
Qed.


(** C6 at Scenario D: a staff member cancels the completed sample
    appointment. *)
Lemma cancel_rejected_when_terminal_witness :
  Controller.run
    (Controller.cancelAppointment utc requestTime staffRequest 100%N cancelBody)
    (dbWith (sampleIn Appointment.completed)) =
  (dbWith (sampleIn Appointment.completed),
   Controller.Sent (Controller.errorResponse "Cannot cancel completed appointment" 400))
  /\ Appointment.findById (dbWith (sampleIn Appointment.completed)).(appointments) 100%N =
     Some (sampleIn Appointment.completed).
Proof.
  apply (cancel_rejected_when_terminal utc requestTime staffRequest 100%N cancelBody
           (dbWith (sampleIn Appointment.completed)) (sampleIn Appointment.completed)).
  - reflexivity.
  - reflexivity.
  - right. reflexivity.
Defined.

(** What [save] does to the document in memory. *)
Lemma save_effect LocalTZA now docs (this : Appointment.t) :
  let saved := snd (Appointment.save LocalTZA now docs this) in
  fst (Appointment.save LocalTZA now docs this) = Appointment.store docs saved
  /\ saved.(Appointment._id) = this.(Appointment._id)
  /\ saved.(Appointment.patient) = this.(Appointment.patient)
  /\ saved.(Appointment.dentist) = this.(Appointment.dentist)
  /\ saved.(Appointment.appointmentDate) = this.(Appointment.appointmentDate)
  /\ saved.(Appointment.startTime) = this.(Appointment.startTime)
  /\ saved.(Appointment.endTime) = this.(Appointment.endTime)
  /\ saved.(Appointment.status) = this.(Appointment.status)
  /\ saved.(Appointment.treatments) = this.(Appointment.treatments)
  /\ saved.(Appointment.cost) = this.(Appointment.cost)
  /\ saved.(Appointment.cancellation) = this.(Appointment.cancellation)
  /\ saved.(Appointment.rescheduling) = this.(Appointment.rescheduling)
  /\ saved.(Appointment.createdAt) = this.(Appointment.createdAt)
  /\ saved.(Appointment.updatedAt) = now
  /\ saved.(Appointment.duration) =
     (if JS.truthy this.(Appointment.startTime) && JS.truthy this.(Appointment.endTime)
      then JS.sub (JS.toMinutes this.(Appointment.endTime))
                  (JS.toMinutes this.(Appointment.startTime))
      else this.(Appointment.duration))
  /\ saved.(Appointment.appointmentId) =
     (if JS.truthy this.(Appointment.appointmentId)
      then this.(Appointment.appointmentId)
      else Appointment.generateAppointmentId LocalTZA now docs).
Proof.
  unfold Appointment.save, Appointment.preSaveAppointmentId, Appointment.preSaveDuration.
  cbn [fst snd].
  destruct (JS.truthy this.(Appointment.appointmentId));
    cbn [negb Appointment.set_appointmentId Appointment.startTime Appointment.endTime];
    destruct (JS.truthy this.(Appointment.startTime) && JS.truthy this.(Appointment.endTime));
    cbn; repeat split; reflexivity.
Qed.



(** The state of [staleAppointment] is one the handlers produce: a general
    update of the end time leaves [duration] as it was. *)
Example stale_duration_reachable :
  Controller.run
    (Controller.updateAppointment utc requestTime staffRequest 100%N (extendTo "11:00"))
    (dbWith sampleAppointment) =
  (dbWith (Appointment.set_updatedAt requestTime staleAppointment),
   Controller.Sent
     (Controller.successResponse
        (Some (Appointment.set_updatedAt requestTime staleAppointment))
        "Appointment updated successfully"))
  /\ Appointment.duration staleAppointment = JS.Int 30
  /\ JS.sub (JS.toMinutes (Appointment.endTime staleAppointment))
            (JS.toMinutes (Appointment.startTime staleAppointment)) = JS.Int 60.
Proof. repeat split; reflexivity. Qed.


(** *** Confirm *)



(** *** Reschedule *)

(** One step through a handler unfolded in [H]: case on the innermost test. *)
Ltac step_handler H :=
  match type of H with
  | context [match ?c with _ => _ end] =>
      lazymatch c with
      | context [match _ with _ => _ end] => fail
      | _ => destruct c eqn:?
      end
  end; cbv beta iota in H; try discriminate H.

Ltac unfold_handler H :=
  unfold Controller.run, Controller.bind, Controller.Appointment_findById,
    Controller.Patient_findOne, Controller.Dentist_findById,
    Controller.Appointment_checkConflict, Controller.Appointment_findByIdAndUpdate,
    Controller.call_isAvailableAt, Controller.when, Controller.orReturn,
    Controller.respond, Controller.throw, Controller.ret, Controller.present in H;
  cbv beta iota in H.

(** What the [reschedule] method does to the document in memory. *)
Lemma reschedule_effect LocalTZA now docs (this : Appointment.t)
      newDate newStartTime newEndTime reason rescheduledBy :
  let this' :=
    snd (Appointment.reschedule LocalTZA now docs this newDate newStartTime newEndTime
                                reason rescheduledBy) in
  fst (Appointment.reschedule LocalTZA now docs this newDate newStartTime newEndTime
                              reason rescheduledBy) = Appointment.store docs this'
  /\ this'.(Appointment._id) = this.(Appointment._id)
  /\ this'.(Appointment.appointmentDate) = newDate
  /\ this'.(Appointment.startTime) = newStartTime
  /\ this'.(Appointment.endTime) = newEndTime
  /\ this'.(Appointment.rescheduling) =
     {| Appointment.Rescheduling.originalDate := Some this.(Appointment.appointmentDate);
        Appointment.Rescheduling.originalTime := Some this.(Appointment.startTime);
        Appointment.Rescheduling.reason := reason;
        Appointment.Rescheduling.rescheduledBy := Some rescheduledBy;
        Appointment.Rescheduling.rescheduledAt := Some now |}
  /\ this'.(Appointment.status) = Appointment.rescheduled.
Proof.
  unfold Appointment.reschedule.
  match goal with
  | |- context [Appointment.save LocalTZA now docs ?d] =>
      pose proof (save_effect LocalTZA now docs d) as H
  end.
  cbv zeta in *.
  destruct H as (Hst & Hid & _ & _ & Hdate & Hs & He & Hstat & _ & _ & _ & Hr & _).
  repeat split; assumption.
Qed.




(** C10. Once the ownership, status and date guards have passed,
    rescheduling an appointment whose dentist reference matches no dentist
    document ends in the [TypeError] of calling [isAvailableAt] on [null],
    not in a not-found response, and the database is what it was. *)
Theorem reschedule_without_practitioner
        LocalTZA now (req : Request.t) (id : ObjectId) (body : Controller.RescheduleBody)
        (db : Db) (appointment : Appointment.t) :
  Appointment.findById db.(appointments) id = Some appointment ->
  permitted db req appointment = true ->
  appointment.(Appointment.status) <> Appointment.cancelled ->
  appointment.(Appointment.status) <> Appointment.completed ->
  JS.startOfDay LocalTZA now <= body.(Controller.newDate) ->
  find (fun d => (d.(Dentist._id) =? appointment.(Appointment.dentist))%N) db.(dentists)
  = None ->
  Controller.run (Controller.rescheduleAppointment LocalTZA now req id body) db =
  (db, Controller.Rejected
         (Controller.TypeError "Cannot read properties of null (reading 'isAvailableAt')"))
  /\ Appointment.findById db.(appointments) id = Some appointment.
Proof.
  intros Hfind Hperm Hnc Hnd Hdate Hdentist. split; [|exact Hfind].
  assert (Hstatus :
    Appointment.Status_eqb appointment.(Appointment.status) Appointment.cancelled
    || Appointment.Status_eqb appointment.(Appointment.status) Appointment.completed
    = false).
  { apply orb_false_iff. split.
    - destruct (Appointment.Status_eqb _ Appointment.cancelled) eqn:E; [|reflexivity].
      apply Status_eqb_eq in E. contradiction.
    - destruct (Appointment.Status_eqb _ Appointment.completed) eqn:E; [|reflexivity].
      apply Status_eqb_eq in E. contradiction. }
  assert (Hpast : (body.(Controller.newDate) <? JS.startOfDay LocalTZA now) = false)
    by (apply Z.ltb_ge; exact Hdate).
  unfold permitted in Hperm.
  unfold Controller.run, Controller.rescheduleAppointment, Controller.bind,
    Controller.Appointment_findById, Controller.Patient_findOne,
    Controller.Dentist_findById, Controller.call_isAvailableAt, Controller.when,
    Controller.orReturn, Controller.respond, Controller.throw, Controller.ret.
  rewrite Hfind. cbv beta iota.
  destruct (Request.patientOnly req); simpl in Hperm.
  - apply negb_true_iff in Hperm. rewrite Hperm. cbv beta iota.
    rewrite Hstatus. cbv beta iota. rewrite Hpast. cbv beta iota.
    rewrite Hdentist. reflexivity.
  - rewrite Hstatus. cbv beta iota. rewrite Hpast. cbv beta iota.
    rewrite Hdentist. reflexivity.
Qed.

(** C10 for the sample appointment once the dentist collection holds no
    document for its dentist. *)
Lemma reschedule_without_practitioner_witness :
  Controller.run
    (Controller.rescheduleAppointment utc requestTime staffRequest 100%N rescheduleBody)
    (set_dentists [] (dbWith sampleAppointment)) =
  (set_dentists [] (dbWith sampleAppointment),
   Controller.Rejected
     (Controller.TypeError "Cannot read properties of null (reading 'isAvailableAt')"))
  /\ Appointment.findById (set_dentists [] (dbWith sampleAppointment)).(appointments) 100%N =
     Some sampleAppointment.
Proof.
  apply (reschedule_without_practitioner utc requestTime staffRequest 100%N rescheduleBody
           (set_dentists [] (dbWith sampleAppointment)) sampleAppointment).
  - reflexivity.
  - reflexivity.
  - discriminate.
  - discriminate.
  - vm_compute. discriminate.
  - reflexivity.
Defined.

(** *** Update *)

(** C4. An accepted update that supplies a date, a start time or an end
    time has passed the conflict check, excluding the appointment itself,
    for the practitioner, date and interval it leaves the appointment with;
    the availability predicate is consulted only when the update names a
    practitioner, who must then exist, be active and be available at that
    date and interval; when it names none, the dentist collection plays no
    part in the answer. *)
Theorem update_revalidation :
  (forall LocalTZA now (req : Request.t) (id : ObjectId) (updates : Controller.Updates)
          (db db' : Db) data message,
      Controller.run (Controller.updateAppointment LocalTZA now req id updates) db =
      (db', Controller.Sent (Controller.successResponse data message)) ->
      Controller.touchesTime updates = true ->
      exists appointment,
        Appointment.findById db.(appointments) id = Some appointment
        /\ hasConflict db.(appointments) (resultingDentist updates appointment)
             (resultingDate updates appointment) (resultingStart updates appointment)
             (resultingEnd updates appointment) (Some id) = false
        /\ (forall dentistId,
               updates.(Controller.u_dentist) = Some dentistId ->
               exists practitioner,
                 find (fun d => (d.(Dentist._id) =? dentistId)%N) db.(dentists)
                 = Some practitioner
                 /\ practitioner.(Dentist.status) = Dentist.active
                 /\ Dentist.isAvailableAt LocalTZA practitioner
                      (resultingDate updates appointment)
                      (resultingStart updates appointment)
                      (resultingEnd updates appointment) = true))
  /\ (forall LocalTZA now (req : Request.t) (id : ObjectId) (updates : Controller.Updates)
             (db : Db) (others : list Dentist.t),
        updates.(Controller.u_dentist) = None ->
        snd (Controller.run (Controller.updateAppointment LocalTZA now req id updates)
                            (set_dentists others db)) =
        snd (Controller.run (Controller.updateAppointment LocalTZA now req id updates) db)).
Proof.
  split.
  - intros LocalTZA now req id updates db db' data message Hrun Htouch.
    unfold Controller.updateAppointment in Hrun. rewrite Htouch in Hrun.
    unfold_handler Hrun.
    destruct (Appointment.findById db.(appointments) id) as [appointment|] eqn:Hfind;
      [|discriminate Hrun].
    exists appointment. split; [reflexivity|].
    unfold hasConflict, resultingDentist, resultingDate, resultingStart, resultingEnd,
      Controller.present.
    destruct (Request.patientOnly req); repeat step_handler Hrun;
      (split; [reflexivity|]); intros dentistId Hd; try discriminate Hd;
      inversion Hd; subst;
      match goal with
      | Hf : find _ (dentists db) = Some ?p, Hs : negb (Dentist.Status_eqb _ _) = false,
        Ha : negb (Dentist.isAvailableAt _ _ _ _ _) = false |- _ =>
          exists p; apply negb_false_iff in Hs; apply negb_false_iff in Ha;
          split; [exact Hf|]; split; [|exact Ha];
          destruct (Dentist.status p); (reflexivity || discriminate Hs)
      end.
  - intros LocalTZA now req id updates db others Hnone.
    unfold Controller.updateAppointment, Controller.run, Controller.bind,
      Controller.Appointment_findById, Controller.Patient_findOne,
      Controller.Dentist_findById, Controller.Appointment_checkConflict,
      Controller.Appointment_findByIdAndUpdate, Controller.call_isAvailableAt,
      Controller.when, Controller.orReturn, Controller.respond, Controller.throw,
      Controller.ret, Controller.present.
    rewrite Hnone. destruct db as [docs ds ps].
    cbv beta iota.
    cbn [appointments dentists patients set_dentists set_appointments].
    repeat (match goal with
            | |- context [match ?c with _ => _ end] =>
                lazymatch c with
                | context [match _ with _ => _ end] => fail
                | _ => destruct c eqn:?
                end
            end;
            cbv beta iota;
            cbn [appointments dentists patients set_dentists set_appointments]);
      reflexivity.
Qed.

(** C4 for a staff member moving the sample appointment to 11:00 with the
    practitioner named in the update. *)
Lemma update_revalidation_witness :
  exists appointment,
    Appointment.findById (dbWith sampleAppointment).(appointments) 100%N = Some appointment
    /\ hasConflict (dbWith sampleAppointment).(appointments)
         (resultingDentist (moveToWith 7%N "11:00" "11:30") appointment)
         (resultingDate (moveToWith 7%N "11:00" "11:30") appointment)
         (resultingStart (moveToWith 7%N "11:00" "11:30") appointment)
         (resultingEnd (moveToWith 7%N "11:00" "11:30") appointment) (Some 100%N) = false
    /\ (forall dentistId,
           (moveToWith 7%N "11:00" "11:30").(Controller.u_dentist) = Some dentistId ->
           exists practitioner,
             find (fun d => (d.(Dentist._id) =? dentistId)%N)
                  (dbWith sampleAppointment).(dentists) = Some practitioner
             /\ practitioner.(Dentist.status) = Dentist.active
             /\ Dentist.isAvailableAt utc practitioner
                  (resultingDate (moveToWith 7%N "11:00" "11:30") appointment)
                  (resultingStart (moveToWith 7%N "11:00" "11:30") appointment)
                  (resultingEnd (moveToWith 7%N "11:00" "11:30") appointment) = true).
Proof.
  eapply (proj1 update_revalidation utc requestTime staffRequest 100%N
            (moveToWith 7%N "11:00" "11:30") (dbWith sampleAppointment) _ _
            "Appointment updated successfully").
  - reflexivity.
  - reflexivity.
Defined.

(** C4 as worded fails: a staff member moves the sample appointment to
    20:00, outside the practitioner's Monday hours of 09:00 to 17:00, and
    the update is accepted. *)
Lemma update_skips_availability : ~ update_revalidates_like_reschedule.
Proof.
  intro H.
  destruct (H utc requestTime staffRequest 100%N (moveTo "20:00" "20:30")
              (dbWith sampleAppointment) _ _ _ sampleAppointment
              eq_refl (or_introl eq_refl) eq_refl)
    as [(practitioner & Hfound & Havailable) _].
  vm_compute in Hfound. inversion Hfound; subst practitioner.
  vm_compute in Havailable. discriminate.
Qed.

(** ** Further properties of the code *)

(** *** Zero-padded times: reading, writing and order *)

Lemma digit_compare (c c' : ascii) (d d' : Z) :
  JS.digit c = Some d -> JS.digit c' = Some d' ->
  Ascii.compare c c' = (d ?= d').
Proof.
  unfold JS.digit, Ascii.compare. intros H H'.
  destruct ((48 <=? Z.of_N (N_of_ascii c)) && (Z.of_N (N_of_ascii c) <=? 57));
    [|discriminate].
  destruct ((48 <=? Z.of_N (N_of_ascii c')) && (Z.of_N (N_of_ascii c') <=? 57));
    [|discriminate].
  inversion H; inversion H'; subst.
  rewrite <- (N2Z.inj_compare (N_of_ascii c) (N_of_ascii c')).
  destruct (Z.compare_spec (Z.of_N (N_of_ascii c)) (Z.of_N (N_of_ascii c')));
    symmetry; [apply Z.compare_eq_iff | apply Z.compare_lt_iff | apply Z.compare_gt_iff];
    lia.
Qed.

Lemma digit_inj (c c' : ascii) (d : Z) :
  JS.digit c = Some d -> JS.digit c' = Some d -> c = c'.
Proof.
  intros H H'. apply Ascii.compare_eq_iff.
  rewrite (digit_compare _ _ _ _ H H'). apply Z.compare_refl.
Qed.

(** The shape of a zero-padded time and the minute it reads as. *)
Lemma paddedTime_digits (s : string) :
  paddedTime s = true ->
  exists c1 c2 c3 c4 d1 d2 d3 d4,
    s = String c1 (String c2 (String ":" (String c3 (String c4 EmptyString))))
    /\ JS.digit c1 = Some d1 /\ JS.digit c2 = Some d2
    /\ JS.digit c3 = Some d3 /\ JS.digit c4 = Some d4
    /\ 0 <= d1 /\ 0 <= d2 <= 9 /\ 10 * d1 + d2 <= 23
    /\ 0 <= d3 <= 5 /\ 0 <= d4 <= 9
    /\ JS.toMinutes s = JS.Int ((10 * d1 + d2) * 60 + (10 * d3 + d4)).
Proof.
  unfold paddedTime. rewrite andb_true_iff. intros [Hvalid Hlen].
  apply Nat.eqb_eq in Hlen.
  destruct s as [|c1 [|c2 [|colon [|c3 [|c4 [|]]]]]]; try discriminate Hlen.
  cbn [Dentist.validTime] in Hvalid.
  destruct (Ascii.eqb c2 ":") eqn:Hc2.
  { apply andb_true_iff in Hvalid. destruct Hvalid as [_ Hm]. discriminate Hm. }
  rewrite !andb_true_iff in Hvalid. destruct Hvalid as [[Hcolon Hm] Hh].
  apply Ascii.eqb_eq in Hcolon. subst colon.
  cbn [Dentist.validMinutes] in Hm. apply andb_true_iff in Hm. destruct Hm as [H3 H4].
  apply digitBelow_digit in H3. destruct H3 as (d3 & Hd3 & Hle3).
  apply isDigit_digit in H4. destruct H4 as (d4 & Hd4).
  pose proof (digit_range _ _ Hd3). pose proof (digit_range _ _ Hd4).
  assert (Hhour : exists d1 d2, JS.digit c1 = Some d1 /\ JS.digit c2 = Some d2
                                /\ 0 <= d1 /\ 0 <= d2 <= 9 /\ 10 * d1 + d2 <= 23).
  { apply orb_true_iff in Hh. destruct Hh as [Hh|Hh];
      apply andb_true_iff in Hh; destruct Hh as [Ha Hb].
    - apply digitBelow_digit in Ha. destruct Ha as (d1 & Hd1 & Hle).
      apply isDigit_digit in Hb. destruct Hb as (d2 & Hd2).
      pose proof (digit_range _ _ Hd1). pose proof (digit_range _ _ Hd2).
      exists d1, d2. repeat split; trivial; lia.
    - apply Ascii.eqb_eq in Ha. subst c1.
      apply digitBelow_digit in Hb. destruct Hb as (d2 & Hd2 & Hle).
      pose proof (digit_range _ _ Hd2).
      exists 2, d2. repeat split; trivial; lia. }
  destruct Hhour as (d1 & d2 & Hd1 & Hd2 & Hr1 & Hr2 & Hr).
  exists c1, c2, c3, c4, d1, d2, d3, d4.
  repeat (split; [first [reflexivity | assumption | lia]|]).
  unfold JS.toMinutes, JS.hourMinute. cbn [JS.split].
  rewrite (digit_not_colon _ _ Hd1), Hc2, (digit_not_colon _ _ Hd3),
    (digit_not_colon _ _ Hd4).
  cbn [Ascii.eqb Bool.eqb map]. unfold JS.Number. cbn [JS.digits].
  rewrite Hd1, Hd2, Hd3, Hd4. cbn [JS.mul JS.add]. f_equal.
Qed.

Lemma paddedTime_minutes (s : string) :
  paddedTime s = true -> exists m, JS.toMinutes s = JS.Int m /\ 0 <= m < 1440.
Proof.
  intro H. apply validTime_toMinutes. unfold paddedTime in H.
  now apply andb_true_iff in H.
Qed.

(** String order on zero-padded times is the order of the minutes. *)
Lemma paddedTime_compare (s1 s2 : string) (m1 m2 : Z) :
  paddedTime s1 = true -> paddedTime s2 = true ->
  JS.toMinutes s1 = JS.Int m1 -> JS.toMinutes s2 = JS.Int m2 ->
  String.compare s1 s2 = (m1 ?= m2).
Proof.
  intros H1 H2 Hm1 Hm2.
  destruct (paddedTime_digits _ H1)
    as (a1 & a2 & a3 & a4 & x1 & x2 & x3 & x4 & Hs1 & Ha1 & Ha2 & Ha3 & Ha4 & ? & ? & ? & ? & ? & Ht1).
  destruct (paddedTime_digits _ H2)
    as (b1 & b2 & b3 & b4 & y1 & y2 & y3 & y4 & Hs2 & Hb1 & Hb2 & Hb3 & Hb4 & ? & ? & ? & ? & ? & Ht2).
  assert (E1 : m1 = (10 * x1 + x2) * 60 + (10 * x3 + x4)) by congruence.
  assert (E2 : m2 = (10 * y1 + y2) * 60 + (10 * y3 + y4)) by congruence.
  clear Hm1 Hm2 Ht1 Ht2 H1 H2. subst s1 s2.
  cbn [String.compare].
  rewrite (digit_compare _ _ _ _ Ha1 Hb1), (digit_compare _ _ _ _ Ha2 Hb2),
    (digit_compare _ _ _ _ Ha3 Hb3), (digit_compare _ _ _ _ Ha4 Hb4).
  replace (Ascii.compare ":" ":") with Eq by reflexivity.
  destruct (Z.compare_spec x1 y1); destruct (Z.compare_spec x2 y2);
    destruct (Z.compare_spec x3 y3); destruct (Z.compare_spec x4 y4);
    cbv beta iota; symmetry; rewrite E1, E2;
    first [apply Z.compare_eq_iff; lia | apply Z.compare_lt_iff; lia
          | apply Z.compare_gt_iff; lia].
Qed.

Lemma timeString_padded (m : Z) :
  0 <= m < 1440 ->
  paddedTime (Dentist.timeString m) = true
  /\ JS.toMinutes (Dentist.timeString m) = JS.Int m.
Proof.
  intro Hm. pose proof (timeString_wellFormatted m Hm) as Hw.
  unfold wellFormatted in Hw. rewrite !andb_true_iff in Hw.
  destruct Hw as [[Hlen Hvalid] Hread].
  split.
  - unfold paddedTime. now rewrite Hvalid, Hlen.
  - destruct (JS.toMinutes (Dentist.timeString m)) as [v|]; [|discriminate].
    apply Z.eqb_eq in Hread. now subst v.
Qed.

(** X1. [timeString] and the HH:MM reading are inverse of each other: a
    minute of the day is rendered as a zero-padded time that reads back as
    that minute, and a zero-padded time is the rendering of the minute it
    reads as. *)
Theorem timeString_roundtrip :
  (forall m, 0 <= m < 1440 ->
      paddedTime (Dentist.timeString m) = true
      /\ JS.toMinutes (Dentist.timeString m) = JS.Int m)
  /\ (forall s, paddedTime s = true ->
        exists m, 0 <= m < 1440 /\ JS.toMinutes s = JS.Int m /\ Dentist.timeString m = s).
Proof.
  split; [exact timeString_padded|].
  intros s Hs. destruct (paddedTime_minutes s Hs) as (m & Hm & Hrange).
  exists m. split; [exact Hrange|]. split; [exact Hm|].
  destruct (timeString_padded m Hrange) as [Hp Hr].
  apply String.compare_eq_iff.
  rewrite (paddedTime_compare _ _ m m Hp Hs Hr Hm). apply Z.compare_refl.
Qed.

Lemma timeString_roundtrip_witness :
  (paddedTime (Dentist.timeString 545) = true
   /\ JS.toMinutes (Dentist.timeString 545) = JS.Int 545)
  /\ exists m, 0 <= m < 1440 /\ JS.toMinutes "16:30" = JS.Int m
               /\ Dentist.timeString m = "16:30".
Proof.
  split.
  - apply (proj1 timeString_roundtrip 545). lia.
  - apply (proj2 timeString_roundtrip "16:30"). reflexivity.
Defined.

(** The comparisons of two zero-padded times, from [paddedTime_compare]. *)
Lemma paddedTime_comparisons (s1 s2 : string) (m1 m2 : Z) :
  paddedTime s1 = true -> paddedTime s2 = true ->
  JS.toMinutes s1 = JS.Int m1 -> JS.toMinutes s2 = JS.Int m2 ->
  JS.lt s1 s2 = (m1 <? m2)
  /\ JS.gt s1 s2 = (m2 <? m1)
  /\ JS.le s1 s2 = (m1 <=? m2)
  /\ JS.ge s1 s2 = (m2 <=? m1)
  /\ (s1 = s2 <-> m1 = m2).
Proof.
  intros H1 H2 Hm1 Hm2.
  pose proof (paddedTime_compare s1 s2 m1 m2 H1 H2 Hm1 Hm2) as H12.
  pose proof (paddedTime_compare s2 s1 m2 m1 H2 H1 Hm2 Hm1) as H21.
  unfold JS.lt, JS.gt, JS.le, JS.ge, String.ltb, String.leb, Z.ltb, Z.leb.
  rewrite H12, H21. repeat split; try reflexivity.
  - intros ->. congruence.
  - intros ->. apply String.compare_eq_iff. rewrite H12. apply Z.compare_refl.
Qed.

(** X2. On zero-padded times the string comparisons the code makes are the
    comparisons of the minutes: [<], [<=] and equality agree. *)
Theorem paddedTime_order (s1 s2 : string) (m1 m2 : Z) :
  paddedTime s1 = true -> paddedTime s2 = true ->
  JS.toMinutes s1 = JS.Int m1 -> JS.toMinutes s2 = JS.Int m2 ->
  JS.lt s1 s2 = (m1 <? m2)
  /\ JS.gt s1 s2 = (m2 <? m1)
  /\ JS.le s1 s2 = (m1 <=? m2)
  /\ JS.ge s1 s2 = (m2 <=? m1)
  /\ (s1 = s2 <-> m1 = m2).
Proof. exact (paddedTime_comparisons s1 s2 m1 m2). Qed.

Lemma paddedTime_order_witness :
  JS.lt "09:45" "10:30" = (585 <? 630)
  /\ JS.gt "09:45" "10:30" = (630 <? 585)
  /\ JS.le "09:45" "10:30" = (585 <=? 630)
  /\ JS.ge "09:45" "10:30" = (630 <=? 585)
  /\ ("09:45" = "10:30" <-> 585 = 630).
Proof.
  apply (paddedTime_order "09:45" "10:30" 585 630); reflexivity.
Defined.

(** Without the padding the two orders part: 9:00 is not before 10:00 as a
    string. *)
Example unpadded_order_differs :
  Dentist.validTime "9:00" = true
  /\ JS.toMinutes "9:00" = JS.Int 540 /\ JS.toMinutes "10:00" = JS.Int 600
  /\ JS.lt "9:00" "10:00" = false.
Proof. repeat split; reflexivity. Qed.

(** *** More on availability *)

Lemma findRegularHours_applies LocalTZA (this : Dentist.t) (date : JS.Date) rule :
  Dentist.findRegularHours LocalTZA this date = Some rule ->
  In rule this.(Dentist.schedule).(Dentist.regularHours)
  /\ appliesOn LocalTZA date rule = true.
Proof. unfold Dentist.findRegularHours. intro H. now apply find_some in H. Qed.

(** [isAvailableAt] on zero-padded times, in minutes. *)
Lemma isAvailableAt_in_minutes
        LocalTZA (this : Dentist.t) (date : JS.Date) rule startTime endTime
        ruleStart ruleEnd s e :
  Dentist.findRegularHours LocalTZA this date = Some rule ->
  paddedRule rule = true ->
  paddedTime startTime = true -> paddedTime endTime = true ->
  JS.toMinutes rule.(Dentist.startTime) = JS.Int ruleStart ->
  JS.toMinutes rule.(Dentist.endTime) = JS.Int ruleEnd ->
  JS.toMinutes startTime = JS.Int s -> JS.toMinutes endTime = JS.Int e ->
  Dentist.isAvailableAt LocalTZA this date startTime endTime =
  (ruleStart <=? s) && (e <=? ruleEnd) && negb (Dentist.hasTimeOff this date).
Proof.
  intros Hrule Hpad Hs He Hrs Hre Hms Hme.
  unfold paddedRule in Hpad. apply andb_true_iff in Hpad. destruct Hpad as [Hps Hpe].
  unfold Dentist.isAvailableAt. rewrite Hrule.
  destruct (paddedTime_comparisons _ _ _ _ Hs Hps Hms Hrs) as (Hlt & _).
  destruct (paddedTime_comparisons _ _ _ _ He Hpe Hme Hre) as (_ & Hgt & _).
  rewrite Hlt, Hgt.
  destruct (Z.ltb_spec s ruleStart); destruct (Z.leb_spec ruleStart s); try lia;
    destruct (Z.ltb_spec ruleEnd e); destruct (Z.leb_spec e ruleEnd); try lia;
    reflexivity.
Qed.

(** X3. For a rule and a request written with two-digit hours,
    [isAvailableAt] is true exactly when the requested minutes lie within
    the rule's, ends included, and no approved absence covers the date. *)
Theorem isAvailableAt_minutes
        LocalTZA (this : Dentist.t) (date : JS.Date) rule startTime endTime
        ruleStart ruleEnd s e :
  Dentist.findRegularHours LocalTZA this date = Some rule ->
  paddedRule rule = true ->
  paddedTime startTime = true -> paddedTime endTime = true ->
  JS.toMinutes rule.(Dentist.startTime) = JS.Int ruleStart ->
  JS.toMinutes rule.(Dentist.endTime) = JS.Int ruleEnd ->
  JS.toMinutes startTime = JS.Int s -> JS.toMinutes endTime = JS.Int e ->
  Dentist.isAvailableAt LocalTZA this date startTime endTime =
  (ruleStart <=? s) && (e <=? ruleEnd) && negb (Dentist.hasTimeOff this date).
Proof.
  exact (isAvailableAt_in_minutes LocalTZA this date rule startTime endTime
           ruleStart ruleEnd s e).
Qed.

Lemma isAvailableAt_minutes_witness :
  Dentist.isAvailableAt utc (scenarioDentist []) monday "16:30" "17:00" =
  (540 <=? 990) && (1020 <=? 1020) && negb (Dentist.hasTimeOff (scenarioDentist []) monday).
Proof.
  apply (isAvailableAt_minutes utc (scenarioDentist []) monday mondayRule
           "16:30" "17:00" 540 1020 990 1020); reflexivity.
Defined.

(** What a returned list of slots is, whatever the fuel that sufficed. *)
Lemma getAvailableSlots_some LocalTZA fuel (this : Dentist.t) (date : JS.Date) slots :
  withinPolicy this ->
  Dentist.getAvailableSlots LocalTZA fuel this date = Some slots ->
  slots = []
  \/ exists rule ruleStart ruleEnd,
       Dentist.findRegularHours LocalTZA this date = Some rule
       /\ Dentist.hasTimeOff this date = false
       /\ JS.toMinutes rule.(Dentist.startTime) = JS.Int ruleStart
       /\ JS.toMinutes rule.(Dentist.endTime) = JS.Int ruleEnd
       /\ slots =
          map Dentist.timeString
            (slotStarts ruleStart this.(Dentist.schedule).(Dentist.consultationDuration)
               (this.(Dentist.schedule).(Dentist.consultationDuration)
                + this.(Dentist.schedule).(Dentist.bufferTime))
               (slotCount ruleStart ruleEnd
                  this.(Dentist.schedule).(Dentist.consultationDuration)
                  (this.(Dentist.schedule).(Dentist.consultationDuration)
                   + this.(Dentist.schedule).(Dentist.bufferTime)))).
Proof.
  intros [Hdur Hbuf]. unfold Dentist.getAvailableSlots.
  destruct (Dentist.findRegularHours LocalTZA this date) as [rule|] eqn:Hrule;
    [|intro H; left; congruence].
  destruct (Dentist.hasTimeOff this date) eqn:Hoff; [intro H; left; congruence|].
  destruct (JS.toMinutes rule.(Dentist.startTime)) as [ruleStart|] eqn:Hrs;
    [|intro H; left; congruence].
  destruct (JS.toMinutes rule.(Dentist.endTime)) as [ruleEnd|] eqn:Hre;
    [|intro H; left; congruence].
  set (duration := this.(Dentist.schedule).(Dentist.consultationDuration)) in *.
  set (step := duration + this.(Dentist.schedule).(Dentist.bufferTime)) in *.
  assert (Hstep : 0 < step) by (unfold step; lia).
  intro H. right. exists rule, ruleStart, ruleEnd.
  repeat (split; [reflexivity|]).
  destruct (Nat.le_gt_cases fuel (slotCount ruleStart ruleEnd duration step)) as [Hle|Hgt].
  - rewrite (slotLoop_running duration ruleEnd step
               (slotCount ruleStart ruleEnd duration step)) in H; [discriminate| |exact Hle].
    intros k Hk. now apply (slotCount_spec duration ruleEnd).
  - rewrite (slotLoop_exact duration ruleEnd step
               (slotCount ruleStart ruleEnd duration step)) in H.
    + cbn [option_map snd app] in H. now inversion H.
    + intros k Hk. now apply (slotCount_spec duration ruleEnd).
    + intro Hfit. apply (slotCount_spec duration ruleEnd) in Hfit; lia.
    + exact Hgt.
Qed.

(** X4. Every slot [getAvailableSlots] offers can be booked for the
    consultation duration as far as [isAvailableAt] is concerned, when the
    weekly rules are written with two-digit hours and the policy is within
    its bounds. *)
Theorem offered_slots_are_available
        LocalTZA fuel (this : Dentist.t) (date : JS.Date) slots slot :
  withinPolicy this ->
  forallb paddedRule this.(Dentist.schedule).(Dentist.regularHours) = true ->
  Dentist.getAvailableSlots LocalTZA fuel this date = Some slots ->
  In slot slots ->
  exists start,
    slot = Dentist.timeString start
    /\ Dentist.isAvailableAt LocalTZA this date slot
         (Dentist.timeString
            (start + this.(Dentist.schedule).(Dentist.consultationDuration))) = true.
Proof.
  intros Hpolicy Hpadded Hslots Hin.
  destruct (getAvailableSlots_some _ _ _ _ _ Hpolicy Hslots)
    as [Hnil | (rule & ruleStart & ruleEnd & Hrule & Hoff & Hrs & Hre & Heq)].
  { subst slots. destruct Hin. }
  destruct Hpolicy as [Hdur Hbuf].
  set (duration := this.(Dentist.schedule).(Dentist.consultationDuration)) in *.
  set (step := duration + this.(Dentist.schedule).(Dentist.bufferTime)) in *.
  assert (Hstep : 0 < step) by (unfold step; lia).
  destruct (findRegularHours_applies _ _ _ _ Hrule) as [Hrin _].
  rewrite forallb_forall in Hpadded. pose proof (Hpadded rule Hrin) as Hpr.
  pose proof Hpr as Hpr'. unfold paddedRule in Hpr'.
  apply andb_true_iff in Hpr'. destruct Hpr' as [Hps Hpe].
  destruct (paddedTime_minutes _ Hps) as (rs' & Hrs' & Hrs_range).
  destruct (paddedTime_minutes _ Hpe) as (re' & Hre' & Hre_range).
  assert (rs' = ruleStart) by congruence. assert (re' = ruleEnd) by congruence.
  subst rs' re' slots.
  apply in_map_iff in Hin. destruct Hin as (start & Hslot & Hstart).
  unfold slotStarts in Hstart. apply in_map_iff in Hstart.
  destruct Hstart as (k & Hk & Hkin). apply in_seq in Hkin.
  assert (Hfit : ruleStart + Z.of_nat k * step + duration <= ruleEnd).
  { apply (slotCount_spec duration ruleEnd step ruleStart k Hstep). lia. }
  assert (Hlo : ruleStart <= start) by nia.
  exists start. split; [now rewrite Hslot|]. subst slot.
  destruct (timeString_padded start ltac:(lia)) as [Hp1 Hm1].
  destruct (timeString_padded (start + duration) ltac:(lia)) as [Hp2 Hm2].
  rewrite (isAvailableAt_in_minutes LocalTZA this date rule _ _ ruleStart ruleEnd
             start (start + duration) Hrule Hpr Hp1 Hp2 Hrs Hre Hm1 Hm2).
  rewrite Hoff.
  destruct (Z.leb_spec ruleStart start); [|lia].
  destruct (Z.leb_spec (start + duration) ruleEnd); [reflexivity|lia].
Qed.

Lemma offered_slots_are_available_witness :
  exists start,
    "16:30" = Dentist.timeString start
    /\ Dentist.isAvailableAt utc (scenarioDentist []) monday "16:30"
         (Dentist.timeString (start + 30)) = true.
Proof.
  apply (offered_slots_are_available utc 12%nat (scenarioDentist []) monday
           ["09:00"; "09:45"; "10:30"; "11:15"; "12:00"; "12:45"; "13:30"; "14:15";
            "15:00"; "15:45"; "16:30"] "16:30").
  - split; simpl; lia.
  - reflexivity.
  - reflexivity.
  - simpl. tauto.
Defined.

(** With an hour written with one digit the two methods disagree: the
    slot offered first is refused by [isAvailableAt]. *)
Example unpadded_rule_slot_refused :
  let this :=
    withRegularHours
      [{| Dentist.dayOfWeek := 1; Dentist.startTime := "9:00";
          Dentist.endTime := "17:00"; Dentist.isActive := true |}]
      (scenarioDentist []) in
  option_map (firstn 1) (Dentist.getAvailableSlots utc 12 this monday) = Some ["09:00"]
  /\ Dentist.isAvailableAt utc this monday "09:00" "09:30" = false.
Proof. split; reflexivity. Qed.

(** X5. Within the policy's bounds and with rule times the schema accepts,
    96 iterations always suffice and at most 95 slots are returned. *)
Theorem getAvailableSlots_bounded LocalTZA (this : Dentist.t) (date : JS.Date) :
  withinPolicy this ->
  forallb validRule this.(Dentist.schedule).(Dentist.regularHours) = true ->
  exists slots,
    Dentist.getAvailableSlots LocalTZA 96 this date = Some slots
    /\ (List.length slots <= 95)%nat.
Proof.
  intros [Hdur Hbuf] Hvalid. unfold Dentist.getAvailableSlots.
  destruct (Dentist.findRegularHours LocalTZA this date) as [rule|] eqn:Hrule;
    [|exists []; split; [reflexivity|simpl; lia]].
  destruct (Dentist.hasTimeOff this date);
    [exists []; split; [reflexivity|simpl; lia]|].
  destruct (findRegularHours_applies _ _ _ _ Hrule) as [Hrin _].
  rewrite forallb_forall in Hvalid. pose proof (Hvalid rule Hrin) as Hv.
  unfold validRule in Hv. apply andb_true_iff in Hv. destruct Hv as [Hvs Hve].
  destruct (validTime_toMinutes _ Hvs) as (ruleStart & Hrs & Hrs_range).
  destruct (validTime_toMinutes _ Hve) as (ruleEnd & Hre & Hre_range).
  rewrite Hrs, Hre.
  set (duration := this.(Dentist.schedule).(Dentist.consultationDuration)) in *.
  set (step := duration + this.(Dentist.schedule).(Dentist.bufferTime)) in *.
  assert (Hstep : 0 < step) by (unfold step; lia).
  assert (Hcount : (slotCount ruleStart ruleEnd duration step <= 95)%nat).
  { destruct (Nat.le_gt_cases (slotCount ruleStart ruleEnd duration step) 95)
      as [Hle|Hgt]; [exact Hle|].
    apply (slotCount_spec duration ruleEnd step ruleStart 95 Hstep) in Hgt.
    unfold step in *. lia. }
  rewrite (slotLoop_exact duration ruleEnd step
             (slotCount ruleStart ruleEnd duration step)).
  - eexists. split; [reflexivity|].
    cbn [snd app]. unfold slotStarts. now rewrite !length_map, length_seq.
  - intros k Hk. now apply (slotCount_spec duration ruleEnd).
  - intro Hfit. apply (slotCount_spec duration ruleEnd) in Hfit; lia.
  - lia.
Qed.

Lemma getAvailableSlots_bounded_witness :
  exists slots,
    Dentist.getAvailableSlots utc 96 (scenarioDentist []) monday = Some slots
    /\ (List.length slots <= 95)%nat.
Proof.
  apply (getAvailableSlots_bounded utc (scenarioDentist []) monday).
  - split; simpl; lia.
  - reflexivity.
Defined.

(** X6. The first rule that applies on the day decides: the rules listed
    after it change neither the slots nor the availability predicate. *)
Theorem first_applicable_rule_decides
        LocalTZA fuel (this : Dentist.t) (date : JS.Date) before rule after after'
        startTime endTime :
  forallb (fun r => negb (appliesOn LocalTZA date r)) before = true ->
  appliesOn LocalTZA date rule = true ->
  Dentist.findRegularHours LocalTZA (withRegularHours (before ++ rule :: after) this) date
  = Some rule
  /\ Dentist.getAvailableSlots LocalTZA fuel
       (withRegularHours (before ++ rule :: after) this) date =
     Dentist.getAvailableSlots LocalTZA fuel
       (withRegularHours (before ++ rule :: after') this) date
  /\ Dentist.isAvailableAt LocalTZA
       (withRegularHours (before ++ rule :: after) this) date startTime endTime =
     Dentist.isAvailableAt LocalTZA
       (withRegularHours (before ++ rule :: after') this) date startTime endTime.
Proof.
  intros Hbefore Hrule.
  assert (Hfind : forall rest,
    Dentist.findRegularHours LocalTZA (withRegularHours (before ++ rule :: rest) this) date
    = Some rule).
  { intro rest. unfold Dentist.findRegularHours. cbn [withRegularHours Dentist.schedule
      Dentist.regularHours].
    fold (appliesOn LocalTZA date).
    induction before as [|r before IH]; cbn [app find].
    - change ((rule.(Dentist.dayOfWeek) =? JS.getDay LocalTZA date)
              && rule.(Dentist.isActive)) with (appliesOn LocalTZA date rule).
      now rewrite Hrule.
    - cbn [forallb] in Hbefore. apply andb_true_iff in Hbefore.
      destruct Hbefore as [Hr Hrest]. apply negb_true_iff in Hr.
      change ((r.(Dentist.dayOfWeek) =? JS.getDay LocalTZA date)
              && r.(Dentist.isActive)) with (appliesOn LocalTZA date r).
      rewrite Hr. now apply IH. }
  split; [apply Hfind|].
  unfold Dentist.getAvailableSlots, Dentist.isAvailableAt.
  rewrite (Hfind after), (Hfind after'). split; reflexivity.
Qed.

Lemma first_applicable_rule_decides_witness :
  Dentist.findRegularHours utc
    (withRegularHours ([] ++ mondayRule :: [mondayRule]) (scenarioDentist [])) monday
  = Some mondayRule
  /\ Dentist.getAvailableSlots utc 12
       (withRegularHours ([] ++ mondayRule :: [mondayRule]) (scenarioDentist [])) monday =
     Dentist.getAvailableSlots utc 12
       (withRegularHours ([] ++ mondayRule :: []) (scenarioDentist [])) monday
  /\ Dentist.isAvailableAt utc
       (withRegularHours ([] ++ mondayRule :: [mondayRule]) (scenarioDentist [])) monday
       "09:00" "09:30" =
     Dentist.isAvailableAt utc
       (withRegularHours ([] ++ mondayRule :: []) (scenarioDentist [])) monday
       "09:00" "09:30".
Proof.
  apply (first_applicable_rule_decides utc 12%nat (scenarioDentist []) monday []
           mondayRule [mondayRule] [] "09:00" "09:30"); reflexivity.
Defined.

(** *** How each handler can end *)

Ltac finish_cases H :=
  inversion H; subst;
  first [ left; split; reflexivity
        | right;
          match goal with
          | Hf : Appointment.findById _ _ = Some ?a, Hc : _ = (?c, ?t) |- _ =>
              exists a, c, t; repeat split; first [reflexivity | assumption]
          end ].

Lemma cancel_effect LocalTZA now docs (this : Appointment.t) reason cancelledBy refundAmount
      docs' saved :
  Appointment.cancel LocalTZA now docs this reason cancelledBy refundAmount = (docs', saved) ->
  docs' = Appointment.store docs saved
  /\ saved.(Appointment._id) = this.(Appointment._id)
  /\ saved.(Appointment.status) = Appointment.cancelled.
Proof.
  unfold Appointment.cancel. intro H.
  match type of H with
  | Appointment.save LocalTZA now docs ?d = _ =>
      pose proof (save_effect LocalTZA now docs d) as He
  end.
  rewrite H in He. cbv zeta in He. cbn [fst snd] in He.
  destruct He as (Hst & Hid & _ & _ & _ & _ & _ & Hstatus & _).
  repeat split; assumption.
Qed.

Lemma findByIdAndUpdate_effect now docs id update docs' (updated : option Appointment.t) :
  Appointment.findByIdAndUpdate now docs id update = (docs', updated) ->
  match Appointment.findById docs id with
  | Some doc =>
      updated = Some (Appointment.set_updatedAt now (update doc))
      /\ docs' = Appointment.store docs (Appointment.set_updatedAt now (update doc))
  | None => updated = None /\ docs' = docs
  end.
Proof.
  unfold Appointment.findByIdAndUpdate.
  destruct (Appointment.findById docs id); intro H; inversion H; split; reflexivity.
Qed.

Lemma cancelAppointment_cases LocalTZA now req id body db db' o :
  Controller.run (Controller.cancelAppointment LocalTZA now req id body) db = (db', o) ->
  (db' = db /\ isSuccess o = false)
  \/ exists appointment docs' saved,
       Appointment.findById db.(appointments) id = Some appointment
       /\ Appointment.cancel LocalTZA now db.(appointments) appointment
            body.(Controller.cancel_reason) (Controller.actorOf req)
            (match body.(Controller.cancel_refundAmount) with Some r => r | None => 0 end)
          = (docs', saved)
       /\ db' = set_appointments docs' db
       /\ o = Controller.Sent
                (Controller.successResponse (Some saved)
                   "Appointment cancelled successfully").
Proof.
  intro H. unfold Controller.cancelAppointment, Controller.Appointment_cancel in H.
  unfold_handler H.
  destruct (Appointment.findById db.(appointments) id) as [appointment|] eqn:Hfind;
    [|finish_cases H].
  destruct (Request.patientOnly req); repeat step_handler H; finish_cases H.
Qed.

Lemma rescheduleAppointment_cases LocalTZA now req id body db db' o :
  Controller.run (Controller.rescheduleAppointment LocalTZA now req id body) db = (db', o) ->
  (db' = db /\ isSuccess o = false)
  \/ exists appointment docs' saved,
       Appointment.findById db.(appointments) id = Some appointment
       /\ Appointment.checkConflict db.(appointments) appointment.(Appointment.dentist)
            body.(Controller.newDate) body.(Controller.newStartTime)
            body.(Controller.newEndTime) (Some id) = None
       /\ Appointment.reschedule LocalTZA now db.(appointments) appointment
            body.(Controller.newDate) body.(Controller.newStartTime)
            body.(Controller.newEndTime) body.(Controller.reschedule_reason)
            (Controller.actorOf req) = (docs', saved)
       /\ db' = set_appointments docs' db
       /\ o = Controller.Sent
                (Controller.successResponse (Some saved)
                   "Appointment rescheduled successfully").
Proof.
  intro H. unfold Controller.rescheduleAppointment, Controller.Appointment_reschedule in H.
  unfold_handler H.
  destruct (Appointment.findById db.(appointments) id) as [appointment|] eqn:Hfind;
    [|finish_cases H].
  destruct (Request.patientOnly req); repeat step_handler H; finish_cases H.
Qed.

Lemma updateAppointment_cases LocalTZA now req id updates db db' o :
  Controller.run (Controller.updateAppointment LocalTZA now req id updates) db = (db', o) ->
  (db' = db /\ isSuccess o = false)
  \/ exists appointment,
       Appointment.findById db.(appointments) id = Some appointment
       /\ (req.(Request.patientOnly) = true ->
           Controller.hasDisallowedFields updates = false)
       /\ db' = set_appointments
                  (Appointment.store db.(appointments)
                     (Appointment.set_updatedAt now
                        (Controller.applyUpdates updates appointment))) db
       /\ o = Controller.Sent
                (Controller.successResponse
                   (Some (Appointment.set_updatedAt now
                            (Controller.applyUpdates updates appointment)))
                   "Appointment updated successfully").
Proof.
  intro H. unfold Controller.updateAppointment in H.
  unfold_handler H. unfold Appointment.findByIdAndUpdate in H.
  destruct (Appointment.findById db.(appointments) id) as [appointment|] eqn:Hfind;
    [|finish_cases H].
  destruct (Request.patientOnly req) eqn:Hp; destruct (Controller.touchesTime updates);
    repeat step_handler H;
    inversion H; subst;
    first [ left; split; reflexivity
          | right; exists appointment; repeat split; congruence ].
Qed.

Lemma confirmAppointment_cases now id db db' o :
  Controller.run (Controller.confirmAppointment now id) db = (db', o) ->
  (db' = db /\ isSuccess o = false)
  \/ exists appointment,
       Appointment.findById db.(appointments) id = Some appointment
       /\ db' = set_appointments
                  (Appointment.store db.(appointments)
                     (Appointment.set_updatedAt now
                        (Appointment.set_status Appointment.confirmed appointment))) db
       /\ o = Controller.Sent
                (Controller.successResponse
                   (Some (Appointment.set_updatedAt now
                            (Appointment.set_status Appointment.confirmed appointment)))
                   "Appointment confirmed successfully").
Proof.
  intro H. unfold Controller.confirmAppointment in H.
  unfold_handler H. unfold Appointment.findByIdAndUpdate in H.
  destruct (Appointment.findById db.(appointments) id) as [appointment|] eqn:Hfind;
    cbv beta iota in H; inversion H; subst.
  - right. exists appointment. repeat split; reflexivity.
  - left. split; [apply set_appointments_same | reflexivity].
Qed.

Lemma completeAppointment_cases now id body db db' o :
  Controller.run (Controller.completeAppointment now id body) db = (db', o) ->
  (db' = db /\ isSuccess o = false)
  \/ exists appointment,
       Appointment.findById db.(appointments) id = Some appointment
       /\ appointment.(Appointment.status) <> Appointment.cancelled
       /\ db' = set_appointments
                  (Appointment.store db.(appointments)
                     (Appointment.set_updatedAt now
                        (Controller.completionUpdate body appointment))) db
       /\ o = Controller.Sent
                (Controller.successResponse
                   (Some (Appointment.set_updatedAt now
                            (Controller.completionUpdate body appointment)))
                   "Appointment completed successfully").
Proof.
  intro H. unfold Controller.completeAppointment in H.
  unfold_handler H. unfold Appointment.findByIdAndUpdate in H.
  destruct (Appointment.findById db.(appointments) id) as [appointment|] eqn:Hfind;
    [|finish_cases H].
  cbv beta iota in H.
  destruct (Appointment.Status_eqb appointment.(Appointment.status) Appointment.cancelled)
    eqn:Hs; cbv beta iota in H; try rewrite Hfind in H; cbv beta iota in H;
    inversion H; subst.
  - left. split; reflexivity.
  - right. exists appointment. repeat split; try reflexivity.
    intro Hc. rewrite Hc in Hs. discriminate.
Qed.

(** *** What the handlers leave alone *)

(** X7. A request that is not answered with success changes nothing: each
    of the five handlers either succeeds or leaves the database exactly as
    it was. *)
Theorem rejected_requests_change_nothing :
  (forall LocalTZA now req id body db db' o,
      Controller.run (Controller.cancelAppointment LocalTZA now req id body) db = (db', o) ->
      isSuccess o = false -> db' = db)
  /\ (forall LocalTZA now req id body db db' o,
         Controller.run (Controller.rescheduleAppointment LocalTZA now req id body) db
         = (db', o) ->
         isSuccess o = false -> db' = db)
  /\ (forall LocalTZA now req id updates db db' o,
         Controller.run (Controller.updateAppointment LocalTZA now req id updates) db
         = (db', o) ->
         isSuccess o = false -> db' = db)
  /\ (forall now id db db' o,
         Controller.run (Controller.confirmAppointment now id) db = (db', o) ->
         isSuccess o = false -> db' = db)
  /\ (forall now id body db db' o,
         Controller.run (Controller.completeAppointment now id body) db = (db', o) ->
         isSuccess o = false -> db' = db).
Proof.
  repeat split.
  - intros ? ? ? ? ? ? ? ? H Hfail.
    destruct (cancelAppointment_cases _ _ _ _ _ _ _ _ H)
      as [[Hdb _] | (a & docs' & saved & _ & _ & _ & Ho)]; [exact Hdb|].
    subst o. discriminate Hfail.
  - intros ? ? ? ? ? ? ? ? H Hfail.
    destruct (rescheduleAppointment_cases _ _ _ _ _ _ _ _ H)
      as [[Hdb _] | (a & docs' & saved & _ & _ & _ & _ & Ho)]; [exact Hdb|].
    subst o. discriminate Hfail.
  - intros ? ? ? ? ? ? ? ? H Hfail.
    destruct (updateAppointment_cases _ _ _ _ _ _ _ _ H)
      as [[Hdb _] | (a & _ & _ & _ & Ho)]; [exact Hdb|].
    subst o. discriminate Hfail.
  - intros ? ? ? ? ? H Hfail.
    destruct (confirmAppointment_cases _ _ _ _ _ H)
      as [[Hdb _] | (a & _ & _ & Ho)]; [exact Hdb|].
    subst o. discriminate Hfail.
  - intros ? ? ? ? ? ? H Hfail.
    destruct (completeAppointment_cases _ _ _ _ _ _ H)
      as [[Hdb _] | (a & _ & _ & _ & Ho)]; [exact Hdb|].
    subst o. discriminate Hfail.
Qed.

Lemma rejected_requests_change_nothing_witness :
  fst (Controller.run
         (Controller.rescheduleAppointment utc requestTime staffRequest 100%N rescheduleBody)
         (dbWith (sampleIn Appointment.completed))) =
  dbWith (sampleIn Appointment.completed).
Proof.
  apply (proj1 (proj2 rejected_requests_change_nothing) utc requestTime staffRequest
           100%N rescheduleBody (dbWith (sampleIn Appointment.completed)) _
           (snd (Controller.run
                   (Controller.rescheduleAppointment utc requestTime staffRequest 100%N
                      rescheduleBody)
                   (dbWith (sampleIn Appointment.completed))))).
  - apply surjective_pairing.
  - reflexivity.
Defined.

Lemma applyUpdates_id (updates : Controller.Updates) (a : Appointment.t) :
  (Controller.applyUpdates updates a).(Appointment._id) = a.(Appointment._id).
Proof.
  unfold Controller.applyUpdates, Controller.setIf.
  destruct updates as [p d dt st en du s t c ca r k]; cbn.
  destruct p, d, dt, st, en, du, s, t, c, ca, r; reflexivity.
Qed.

Lemma store_frame (db : Db) (doc : Appointment.t) (id : ObjectId) :
  doc.(Appointment._id) = id ->
  let db' := set_appointments (Appointment.store db.(appointments) doc) db in
  db'.(dentists) = db.(dentists)
  /\ db'.(patients) = db.(patients)
  /\ forall other, other <> id ->
       Appointment.findById db'.(appointments) other =
       Appointment.findById db.(appointments) other.
Proof.
  intros Hid. cbn. repeat split. intros other Hother.
  apply findById_store_other. congruence.
Qed.

(** X8. Whatever its outcome, a handler addressed to one appointment
    leaves every other appointment, the dentists and the patients as they
    were. *)
Theorem handlers_touch_one_appointment :
  forall LocalTZA now req id cancelBody' rescheduleBody' updates completeBody db,
    let unchangedBut (db' : Db) :=
      db'.(dentists) = db.(dentists)
      /\ db'.(patients) = db.(patients)
      /\ forall other, other <> id ->
           Appointment.findById db'.(appointments) other =
           Appointment.findById db.(appointments) other in
    unchangedBut
      (fst (Controller.run (Controller.cancelAppointment LocalTZA now req id cancelBody') db))
    /\ unchangedBut
         (fst (Controller.run
                 (Controller.rescheduleAppointment LocalTZA now req id rescheduleBody') db))
    /\ unchangedBut
         (fst (Controller.run (Controller.updateAppointment LocalTZA now req id updates) db))
    /\ unchangedBut (fst (Controller.run (Controller.confirmAppointment now id) db))
    /\ unchangedBut
         (fst (Controller.run (Controller.completeAppointment now id completeBody) db)).
Proof.
  intros. unfold unchangedBut. clear unchangedBut.
  assert (Hsame : db.(dentists) = db.(dentists)
                  /\ db.(patients) = db.(patients)
                  /\ forall other, other <> id ->
                       Appointment.findById db.(appointments) other =
                       Appointment.findById db.(appointments) other)
    by (repeat split).
  split; [|split; [|split; [|split]]].
  all: match goal with
       | |- context [fst (Controller.run ?h ?d)] =>
           destruct (Controller.run h d) as [db' o] eqn:H; cbn [fst]
       end.
  all: try (apply cancelAppointment_cases in H;
            destruct H as [[-> _] | (a & docs' & saved & Hfind & Hc & -> & _)];
            [apply Hsame|];
            apply cancel_effect in Hc; destruct Hc as (-> & Hid & _);
            apply store_frame; rewrite Hid; now apply findById_id with (docs := db.(appointments))).
  all: try (apply rescheduleAppointment_cases in H;
            destruct H as [[-> _] | (a & docs' & saved & Hfind & _ & Hc & -> & _)];
            [apply Hsame|];
            pose proof (reschedule_effect LocalTZA now db.(appointments) a
                          rescheduleBody'.(Controller.newDate)
                          rescheduleBody'.(Controller.newStartTime)
                          rescheduleBody'.(Controller.newEndTime)
                          rescheduleBody'.(Controller.reschedule_reason)
                          (Controller.actorOf req)) as He;
            rewrite Hc in He; cbv zeta in He; cbn [fst snd] in He;
            destruct He as (-> & Hid & _);
            apply store_frame; rewrite Hid; now apply findById_id with (docs := db.(appointments))).
  all: try (apply updateAppointment_cases in H;
            destruct H as [[-> _] | (a & Hfind & _ & -> & _)]; [apply Hsame|];
            apply store_frame; cbn; rewrite applyUpdates_id;
            now apply findById_id with (docs := db.(appointments))).
  all: try (apply confirmAppointment_cases in H;
            destruct H as [[-> _] | (a & Hfind & -> & _)]; [apply Hsame|];
            apply store_frame; cbn;
            now apply findById_id with (docs := db.(appointments))).
  all: try (apply completeAppointment_cases in H;
            destruct H as [[-> _] | (a & Hfind & _ & -> & _)]; [apply Hsame|];
            apply store_frame; cbn;
            now apply findById_id with (docs := db.(appointments))).
Qed.

Lemma handlers_touch_one_appointment_witness :
  Appointment.findById
    (fst (Controller.run
            (Controller.cancelAppointment utc requestTime staffRequest 100%N cancelBody)
            twoAppointments)).(appointments) 101%N =
  Appointment.findById twoAppointments.(appointments) 101%N.
Proof.
  pose proof (handlers_touch_one_appointment utc requestTime staffRequest 100%N cancelBody
                rescheduleBody noUpdates
                {| Controller.complete_treatments := None;
                   Controller.complete_costActual := None |} twoAppointments) as H.
  cbv zeta in H. destruct H as ((_ & _ & H) & _).
  apply H. discriminate.
Defined.

(** *** Who may change an appointment *)



Lemma applyUpdates_allowed (updates : Controller.Updates) (a : Appointment.t) :
  Controller.hasDisallowedFields updates = false ->
  Controller.applyUpdates updates a = a.
Proof.
  unfold Controller.hasDisallowedFields, Controller.applyUpdates, Controller.setIf,
    Controller.present.
  destruct updates as [p d dt st en du s t c ca r k]; cbn.
  destruct p, d, dt, st, en, du, s, t, c, ca, r; cbn; try discriminate.
  reflexivity.
Qed.

(** X10. A general update made by a patient-only request that is accepted
    changes none of the modelled paths of the appointment: patient, dentist,
    date, times, duration, status, treatments, cost, cancellation and
    rescheduling records stay as they were (only [updatedAt] moves). *)
Theorem patient_updates_keep_the_booking
        LocalTZA now (req : Request.t) (id : ObjectId) (updates : Controller.Updates)
        (db db' : Db) data message :
  req.(Request.patientOnly) = true ->
  Controller.run (Controller.updateAppointment LocalTZA now req id updates) db =
  (db', Controller.Sent (Controller.successResponse data message)) ->
  exists appointment,
    Appointment.findById db.(appointments) id = Some appointment
    /\ data = Some (Appointment.set_updatedAt now appointment)
    /\ Appointment.findById db'.(appointments) id =
       Some (Appointment.set_updatedAt now appointment).
Proof.
  intros Hp H. apply updateAppointment_cases in H.
  destruct H as [[_ Hfail] | (a & Hfind & Hallowed & Hdb & Ho)]; [discriminate Hfail|].
  specialize (Hallowed Hp).
  rewrite (applyUpdates_allowed _ _ Hallowed) in Hdb, Ho.
  exists a. split; [exact Hfind|]. split; [congruence|].
  subst db'. cbn [appointments set_appointments].
  apply findById_store with (a := a); [exact Hfind|].
  cbn. now apply findById_id with (docs := db.(appointments)).
Qed.

Lemma patient_updates_keep_the_booking_witness :
  exists appointment,
    Appointment.findById (dbWith sampleAppointment).(appointments) 100%N = Some appointment
    /\ Some (Appointment.set_updatedAt requestTime sampleAppointment) =
       Some (Appointment.set_updatedAt requestTime appointment)
    /\ Appointment.findById
         (dbWith (Appointment.set_updatedAt requestTime sampleAppointment)).(appointments)
         100%N =
       Some (Appointment.set_updatedAt requestTime appointment).
Proof.
  apply (patient_updates_keep_the_booking utc requestTime patientRequest 100%N noUpdates
           (dbWith sampleAppointment)
           (dbWith (Appointment.set_updatedAt requestTime sampleAppointment))
           (Some (Appointment.set_updatedAt requestTime sampleAppointment))
           "Appointment updated successfully"); reflexivity.
Defined.

(** *** The conflict query, further *)

Lemma hasConflict_existsb docs practitioner date s e excludeId :
  hasConflict docs practitioner date s e excludeId =
  existsb (Appointment.conflictQuery practitioner date s e excludeId) docs.
Proof.
  unfold hasConflict, Appointment.checkConflict, Controller.present.
  induction docs as [|x docs IH]; [reflexivity|]. cbn [find existsb].
  destruct (Appointment.conflictQuery practitioner date s e excludeId x);
    [reflexivity | exact IH].
Qed.

Lemma paddedTime_minuteOf (s : string) :
  paddedTime s = true -> JS.toMinutes s = JS.Int (minuteOf s).
Proof.
  intro H. destruct (paddedTime_minutes s H) as (m & Hm & _).
  unfold minuteOf. now rewrite Hm.
Qed.

(** X11. When the stored and the candidate times are written with
    two-digit hours, [hasConflict] is true exactly when some counted
    appointment of the practitioner on the date, other than the excluded
    one, overlaps the candidate as intervals of minutes: it starts before
    the candidate ends and ends after the candidate starts. *)
Theorem hasConflict_minutes docs practitioner date s e excludeId :
  Forall (fun a => paddedTime a.(Appointment.startTime) = true
                   /\ paddedTime a.(Appointment.endTime) = true) docs ->
  paddedTime s = true -> paddedTime e = true ->
  (hasConflict docs practitioner date s e excludeId = true <->
   exists a,
     In a docs
     /\ a.(Appointment.dentist) = practitioner
     /\ a.(Appointment.appointmentDate) = date
     /\ blocks a = true
     /\ excludeId <> Some a.(Appointment._id)
     /\ minuteOf a.(Appointment.startTime) < minuteOf e
     /\ minuteOf s < minuteOf a.(Appointment.endTime)).
Proof.
  intros Hdocs Hs He. rewrite hasConflict_existsb, existsb_exists.
  rewrite Forall_forall in Hdocs.
  split; intros (a & Hin & H); exists a; (split; [exact Hin|]);
    destruct (Hdocs a Hin) as [Has Hae];
    destruct (paddedTime_comparisons _ _ _ _ Has He (paddedTime_minuteOf _ Has)
                (paddedTime_minuteOf _ He)) as (Hlt & _);
    destruct (paddedTime_comparisons _ _ _ _ Hae Hs (paddedTime_minuteOf _ Hae)
                (paddedTime_minuteOf _ Hs)) as (_ & Hgt & _).
  - apply conflictQuery_spec in H.
    destruct H as (Hd & Hdate & Hc & Hn & Hex & Hl & Hg).
    rewrite Hlt in Hl. rewrite Hgt in Hg.
    apply Z.ltb_lt in Hl. apply Z.ltb_lt in Hg.
    repeat (split; [assumption|]).
    split; [now apply active_status|]. repeat split; assumption.
  - destruct H as (Hd & Hdate & Hb & Hex & Hl & Hg).
    apply conflictQuery_spec. apply active_status in Hb. destruct Hb as [Hc Hn].
    repeat (split; [assumption|]).
    rewrite Hlt, Hgt. split; now apply Z.ltb_lt.
Qed.

Lemma hasConflict_minutes_witness :
  hasConflict [sampleAppointment] 7%N monday "10:15" "10:45" None = true <->
  exists a,
    In a [sampleAppointment]
    /\ a.(Appointment.dentist) = 7%N
    /\ a.(Appointment.appointmentDate) = monday
    /\ blocks a = true
    /\ None <> Some a.(Appointment._id)
    /\ minuteOf a.(Appointment.startTime) < minuteOf "10:45"
    /\ minuteOf "10:15" < minuteOf a.(Appointment.endTime).
Proof.
  apply (hasConflict_minutes [sampleAppointment] 7%N monday "10:15" "10:45" None).
  - constructor; [split; reflexivity | constructor].
  - reflexivity.
  - reflexivity.
Defined.

Lemma overlap_sym (a b : Appointment.t) : overlap a b = overlap b a.
Proof.
  unfold overlap, JS.gt, JS.lt.
  rewrite (N.eqb_sym a.(Appointment.dentist)), (Z.eqb_sym a.(Appointment.appointmentDate)).
  destruct (b.(Appointment.dentist) =? a.(Appointment.dentist))%N;
    destruct (b.(Appointment.appointmentDate) =? a.(Appointment.appointmentDate));
    destruct (String.ltb a.(Appointment.startTime) b.(Appointment.endTime));
    destruct (String.ltb b.(Appointment.startTime) a.(Appointment.endTime)); reflexivity.
Qed.

Lemma conflictQuery_overlap (a candidate : Appointment.t) :
  Appointment.conflictQuery candidate.(Appointment.dentist)
    candidate.(Appointment.appointmentDate) candidate.(Appointment.startTime)
    candidate.(Appointment.endTime) (Some candidate.(Appointment._id)) a =
  overlap a candidate && blocks a
  && negb (a.(Appointment._id) =? candidate.(Appointment._id))%N.
Proof.
  unfold Appointment.conflictQuery, overlap, blocks.
  destruct (a.(Appointment.dentist) =? candidate.(Appointment.dentist))%N;
    destruct (a.(Appointment.appointmentDate) =? candidate.(Appointment.appointmentDate));
    destruct (JS.lt a.(Appointment.startTime) candidate.(Appointment.endTime));
    destruct (JS.gt a.(Appointment.endTime) candidate.(Appointment.startTime));
    destruct (existsb _ _); reflexivity.
Qed.

(** X12. The conflict test is symmetric: of two appointments that both
    count (or both do not), the first conflicts with the second as a
    candidate exactly when the second conflicts with the first. *)
Theorem hasConflict_symmetric (a b : Appointment.t) :
  blocks a = blocks b ->
  hasConflict [a] b.(Appointment.dentist) b.(Appointment.appointmentDate)
    b.(Appointment.startTime) b.(Appointment.endTime) (Some b.(Appointment._id)) =
  hasConflict [b] a.(Appointment.dentist) a.(Appointment.appointmentDate)
    a.(Appointment.startTime) a.(Appointment.endTime) (Some a.(Appointment._id)).
Proof.
  intro Hb. rewrite !hasConflict_existsb. cbn [existsb]. rewrite !orb_false_r.
  rewrite !conflictQuery_overlap, (overlap_sym b a), Hb,
    (N.eqb_sym b.(Appointment._id)).
  reflexivity.
Qed.

Lemma hasConflict_symmetric_witness :
  hasConflict [sampleAppointment] 7%N monday "11:00" "11:30" (Some 101%N) =
  hasConflict [laterAppointment] 7%N monday "10:00" "10:30" (Some 100%N).
Proof.
  apply (hasConflict_symmetric sampleAppointment laterAppointment). reflexivity.
Defined.

(** *** Bookings over time *)


Lemma save_keeps_booking LocalTZA now docs (this : Appointment.t) docs' saved :
  Appointment.save LocalTZA now docs this = (docs', saved) ->
  docs' = Appointment.store docs saved
  /\ saved.(Appointment._id) = this.(Appointment._id)
  /\ saved.(Appointment.dentist) = this.(Appointment.dentist)
  /\ saved.(Appointment.appointmentDate) = this.(Appointment.appointmentDate)
  /\ saved.(Appointment.startTime) = this.(Appointment.startTime)
  /\ saved.(Appointment.endTime) = this.(Appointment.endTime)
  /\ saved.(Appointment.status) = this.(Appointment.status).
Proof.
  intro H. pose proof (save_effect LocalTZA now docs this) as He.
  rewrite H in He. cbv zeta in He. cbn [fst snd] in He.
  destruct He as (Hst & Hid & _ & Hd & Hdate & Hs & He & Hstatus & _).
  repeat split; assumption.
Qed.



(** X14. A successful cancel frees the interval: afterwards the conflict
    check, with nothing excluded, answers for every candidate what it
    answered before with the cancelled appointment excluded. *)
Theorem cancel_frees_the_interval
        LocalTZA now req id body db db' o practitioner date s e :
  Controller.run (Controller.cancelAppointment LocalTZA now req id body) db = (db', o) ->
  isSuccess o = true ->
  hasConflict db'.(appointments) practitioner date s e None =
  hasConflict db.(appointments) practitioner date s e (Some id).
Proof.
  intros H Hok. apply cancelAppointment_cases in H.
  destruct H as [[_ Hfail] | (a & docs' & saved & Hfind & Hc & -> & _)]; [congruence|].
  apply cancel_effect in Hc. destruct Hc as (-> & Hid & Hstatus).
  pose proof (findById_id _ _ _ Hfind) as Ha.
  cbn [appointments set_appointments]. rewrite !hasConflict_existsb.
  unfold Appointment.store. generalize db.(appointments) as docs.
  induction docs as [|x docs IH]; [reflexivity|]. cbn [map existsb].
  rewrite IH. f_equal.
  destruct (N.eqb_spec x.(Appointment._id) saved.(Appointment._id)) as [Heq|Hne];
    unfold Appointment.conflictQuery.
  - rewrite Hstatus. cbn [existsb Appointment.Status_eqb orb negb].
    replace (x.(Appointment._id) =? id)%N with true
      by (symmetry; apply N.eqb_eq; congruence).
    cbn [negb]. now rewrite !andb_false_r.
  - replace (x.(Appointment._id) =? id)%N with false
      by (symmetry; apply N.eqb_neq; congruence).
    reflexivity.
Qed.

Lemma cancel_frees_the_interval_witness :
  hasConflict
    (fst (Controller.run
            (Controller.cancelAppointment utc requestTime staffRequest 100%N cancelBody)
            twoAppointments)).(appointments) 7%N monday "10:15" "10:45" None =
  hasConflict twoAppointments.(appointments) 7%N monday "10:15" "10:45" (Some 100%N).
Proof.
  apply (cancel_frees_the_interval utc requestTime staffRequest 100%N cancelBody
           twoAppointments _
           (snd (Controller.run
                   (Controller.cancelAppointment utc requestTime staffRequest 100%N cancelBody)
                   twoAppointments))).
  - apply surjective_pairing.
  - reflexivity.
Defined.

(** X23. A rescheduled appointment holds its new interval: after a
    successful reschedule to an interval that starts before it ends, the
    conflict check, with nothing excluded, reports a conflict for that
    practitioner, date and interval. *)
Theorem rescheduled_appointment_holds_interval
        LocalTZA now req id body db db' o :
  Controller.run (Controller.rescheduleAppointment LocalTZA now req id body) db = (db', o) ->
  isSuccess o = true ->
  JS.lt body.(Controller.newStartTime) body.(Controller.newEndTime) = true ->
  exists appointment,
    Appointment.findById db.(appointments) id = Some appointment
    /\ hasConflict db'.(appointments) appointment.(Appointment.dentist)
         body.(Controller.newDate) body.(Controller.newStartTime)
         body.(Controller.newEndTime) None = true.
Proof.
  intros H Hok Hinterval. apply rescheduleAppointment_cases in H.
  destruct H as [[_ Hfail] | (a & docs' & saved & Hfind & _ & Hr & -> & _)]; [congruence|].
  exists a. split; [exact Hfind|].
  pose proof (reschedule_effect LocalTZA now db.(appointments) a
                body.(Controller.newDate) body.(Controller.newStartTime)
                body.(Controller.newEndTime) body.(Controller.reschedule_reason)
                (Controller.actorOf req)) as He.
  unfold Appointment.reschedule in Hr. pose proof (save_keeps_booking _ _ _ _ _ _ Hr) as Hk.
  fold (Appointment.reschedule LocalTZA now db.(appointments) a
          body.(Controller.newDate) body.(Controller.newStartTime)
          body.(Controller.newEndTime) body.(Controller.reschedule_reason)
          (Controller.actorOf req)) in Hr.
  rewrite Hr in He. cbv zeta in He. cbn [fst snd] in He.
  destruct He as (-> & Hid & Hdate & Hs & He & _ & Hstatus).
  destruct Hk as (_ & _ & Hd & _). cbn in Hd.
  cbn [appointments set_appointments].
  rewrite hasConflict_existsb. apply existsb_exists. exists saved. split.
  - pose proof (findById_store _ _ a saved Hfind
                  ltac:(rewrite Hid; now apply findById_id with (docs := db.(appointments))))
      as Hstored.
    unfold Appointment.findById in Hstored. now apply find_some in Hstored.
  - unfold Appointment.conflictQuery, JS.gt.
    rewrite Hd, Hdate, Hs, He, Hstatus, N.eqb_refl, Z.eqb_refl.
    unfold JS.lt in Hinterval |- *. rewrite Hinterval. reflexivity.
Qed.

Lemma rescheduled_appointment_holds_interval_witness :
  exists appointment,
    Appointment.findById (dbWith sampleAppointment).(appointments) 100%N = Some appointment
    /\ hasConflict
         (fst (Controller.run
                 (Controller.rescheduleAppointment utc requestTime staffRequest 100%N
                    rescheduleBody)
                 (dbWith sampleAppointment))).(appointments)
         appointment.(Appointment.dentist) nextMonday "11:00" "11:30" None = true.
Proof.
  apply (rescheduled_appointment_holds_interval utc requestTime staffRequest 100%N
           rescheduleBody (dbWith sampleAppointment) _
           (snd (Controller.run
                   (Controller.rescheduleAppointment utc requestTime staffRequest 100%N
                      rescheduleBody)
                   (dbWith sampleAppointment)))).
  - apply surjective_pairing.
  - reflexivity.
  - reflexivity.
Defined.





(** *** Pagination *)



Lemma ceil_div_spec (totalItems limit : Z) :
  0 <= totalItems -> 1 <= limit ->
  let totalPages := - ((- totalItems) / limit) in
  (totalPages - 1) * limit < totalItems <= totalPages * limit.
Proof.
  intros Htotal Hlimit. cbv zeta.
  pose proof (Z.mul_div_le (- totalItems) limit ltac:(lia)).
  pose proof (Z.mul_succ_div_gt (- totalItems) limit ltac:(lia)).
  nia.
Qed.

(** X17. For a count of at least 0 and a limit of at least 1,
    [totalPages] is the least number of pages of [limit] documents that
    hold them all, and [hasNextPage] is true exactly when documents remain
    after the current page; [nextPage] and [prevPage] are set exactly when
    the two flags are. *)
Theorem createPaginationMeta_spec (totalItems page limit : Z) :
  0 <= totalItems -> 1 <= limit -> 1 <= page ->
  let meta := Pagination.createPaginationMeta totalItems page limit in
  (meta.(Pagination.Meta.totalPages) - 1) * limit < totalItems
    <= meta.(Pagination.Meta.totalPages) * limit
  /\ (meta.(Pagination.Meta.hasNextPage) = true <-> page * limit < totalItems)
  /\ (meta.(Pagination.Meta.hasPrevPage) = true <-> 1 < page)
  /\ meta.(Pagination.Meta.nextPage) =
     (if meta.(Pagination.Meta.hasNextPage) then Some (page + 1) else None)
  /\ meta.(Pagination.Meta.prevPage) =
     (if meta.(Pagination.Meta.hasPrevPage) then Some (page - 1) else None).
Proof.
  intros Htotal Hlimit Hpage. cbv zeta.
  pose proof (ceil_div_spec totalItems limit Htotal Hlimit) as Hceil. cbv zeta in Hceil.
  unfold Pagination.createPaginationMeta. cbn.
  split; [exact Hceil|]. split; [|split; [|split; reflexivity]].
  - rewrite Z.ltb_lt. split; intro H; nia.
  - apply Z.ltb_lt.
Qed.

Lemma createPaginationMeta_spec_witness :
  let meta := Pagination.createPaginationMeta 25 2 10 in
  (meta.(Pagination.Meta.totalPages) - 1) * 10 < 25
    <= meta.(Pagination.Meta.totalPages) * 10
  /\ (meta.(Pagination.Meta.hasNextPage) = true <-> 2 * 10 < 25)
  /\ (meta.(Pagination.Meta.hasPrevPage) = true <-> 1 < 2)
  /\ meta.(Pagination.Meta.nextPage) =
     (if meta.(Pagination.Meta.hasNextPage) then Some (2 + 1) else None)
  /\ meta.(Pagination.Meta.prevPage) =
     (if meta.(Pagination.Meta.hasPrevPage) then Some (2 - 1) else None).
Proof.
  apply (createPaginationMeta_spec 25 2 10); lia.
Defined.

Lemma firstn_plus {A : Type} (a b : nat) (l : list A) :
  firstn (a + b) l = (firstn a l ++ firstn b (skipn a l))%list.
Proof.
  revert l. induction a as [|a IH]; intro l; [reflexivity|].
  destruct l as [|x l]; cbn [Nat.add firstn skipn app].
  - now rewrite firstn_nil.
  - now rewrite IH.
Qed.

Lemma pages_concat {A : Type} (n m : nat) (l : list A) :
  List.concat (map (fun k => firstn n (skipn (k * n) l)) (seq 0 m)) = firstn (m * n) l.
Proof.
  induction m as [|m IH]; [reflexivity|].
  rewrite seq_S, map_app, concat_app, IH. cbn [map List.concat Nat.add].
  rewrite app_nil_r. replace (S m * n)%nat with (m * n + n)%nat by lia.
  now rewrite firstn_plus.
Qed.

(** X18. The pages of a listing partition it: read in order from page 1
    to [totalPages], the pages of [applyPagination] give back exactly the
    documents that pass the filter, each page holding at most [limit]
    documents. *)
Theorem pages_partition_the_listing {A : Type} (docs : list A) (filter' : A -> bool)
        (limit' : JS.Num) :
  let pageOf (p : Z) :=
    Pagination.applyPagination docs
      {| Pagination.query_page := JS.Int p; Pagination.query_limit := limit' |} filter' in
  let totalPages := (snd (pageOf 1)).(Pagination.Meta.totalPages) in
  List.concat (map (fun k => fst (pageOf (Z.of_nat (S k)))) (seq 0 (Z.to_nat totalPages)))
  = filter filter' docs
  /\ forall p, Z.of_nat (List.length (fst (pageOf p)))
               <= (snd (pageOf p)).(Pagination.Meta.limit) <= 100.
Proof.
  cbv zeta. unfold Pagination.applyPagination, Pagination.getPaginationParams.
  cbn [fst snd Pagination.page Pagination.limit Pagination.skip
       Pagination.query_page Pagination.query_limit
       Pagination.createPaginationMeta Pagination.Meta.totalPages Pagination.Meta.limit].
  set (limit := Z.min 100 (Z.max 1 (Pagination.orDefault limit' 10))).
  set (found := filter filter' docs).
  assert (Hlimit : 1 <= limit <= 100) by (unfold limit; lia).
  split.
  - pose proof (ceil_div_spec (Z.of_nat (List.length found)) limit ltac:(lia) ltac:(lia))
      as Hceil. cbv zeta in Hceil.
    set (totalPages := - (- Z.of_nat (List.length found) / limit)) in *.
    transitivity (firstn (Z.to_nat totalPages * Z.to_nat limit) found);
      [|apply firstn_all2; nia].
    rewrite <- pages_concat. apply f_equal. apply map_ext_in.
    intros k Hk. apply in_seq in Hk.
    assert (Hpage : Z.max 1 (Pagination.orDefault (JS.Int (Z.of_nat (S k))) 1)
                    = Z.of_nat (S k)).
    { unfold Pagination.orDefault.
      destruct (Z.eqb_spec (Z.of_nat (S k)) 0); lia. }
    rewrite Hpage. do 2 f_equal. nia.
  - intro p. rewrite length_firstn. lia.
Qed.

(** *** Saving, validating and the virtuals *)






(** With one-digit hours the rule lets an interval through backwards:
    from 10:00 to 9:30. *)
Example unpadded_endTime_accepted :
  Validation.endTime (Some "10:00") "9:30" = true
  /\ JS.sub (JS.toMinutes "9:30") (JS.toMinutes "10:00") = JS.Int (-30).
Proof. split; reflexivity. Qed.

Lemma toMinutes_hourMinute (s : string) (v : Z) :
  JS.toMinutes s = JS.Int v ->
  exists h m, JS.hourMinute s = (JS.Int h, JS.Int m) /\ v = h * 60 + m.
Proof.
  unfold JS.toMinutes. destruct (JS.hourMinute s) as [[h|] [m|]]; cbn; intro H;
    try discriminate H.
  exists h, m. split; [reflexivity | congruence].
Qed.

(** X21. For times the schema accepts, and a host whose clock offset is the
    same at the start and at the end of the appointment, the two date-time
    virtuals are valid dates and lie exactly as many minutes apart as the
    end time reads after the start time. *)
Theorem appointment_span LocalTZA (this : Appointment.t) :
  Dentist.validTime this.(Appointment.startTime) = true ->
  Dentist.validTime this.(Appointment.endTime) = true ->
  (let localDay :=
     JS.Day (JS.LocalTime LocalTZA this.(Appointment.appointmentDate)) * JS.msPerDay in
   LocalTZA (localDay + minuteOf this.(Appointment.startTime) * 60000) false =
   LocalTZA (localDay + minuteOf this.(Appointment.endTime) * 60000) false) ->
  exists starts ends,
    Appointment.appointmentDateTime LocalTZA this = Some (JS.Int starts)
    /\ Appointment.appointmentEndDateTime LocalTZA this = Some (JS.Int ends)
    /\ ends - starts =
       (minuteOf this.(Appointment.endTime) - minuteOf this.(Appointment.startTime)) * 60000.
Proof.
  intros Hs He Hoffset. cbv zeta in Hoffset.
  destruct (validTime_toMinutes _ Hs) as (vs & Hvs & _).
  destruct (validTime_toMinutes _ He) as (ve & Hve & _).
  destruct (toMinutes_hourMinute _ _ Hvs) as (hs & ms & Hhs & Es).
  destruct (toMinutes_hourMinute _ _ Hve) as (he & me & Hhe & Ee).
  assert (Htruthy : forall s, Dentist.validTime s = true -> JS.truthy s = true).
  { intros s H. destruct s; [discriminate H | reflexivity]. }
  unfold minuteOf in *. rewrite Hvs, Hve in *.
  unfold Appointment.appointmentDateTime, Appointment.appointmentEndDateTime.
  rewrite (Htruthy _ Hs), (Htruthy _ He), Hhs, Hhe. cbn [negb JS.setHours].
  do 2 eexists. split; [reflexivity|]. split; [reflexivity|].
  unfold JS.UTC.
  replace (JS.Day (JS.LocalTime LocalTZA this.(Appointment.appointmentDate)) * JS.msPerDay
           + hs * 3600000 + ms * 60000)
    with (JS.Day (JS.LocalTime LocalTZA this.(Appointment.appointmentDate)) * JS.msPerDay
          + vs * 60000) by lia.
  replace (JS.Day (JS.LocalTime LocalTZA this.(Appointment.appointmentDate)) * JS.msPerDay
           + he * 3600000 + me * 60000)
    with (JS.Day (JS.LocalTime LocalTZA this.(Appointment.appointmentDate)) * JS.msPerDay
          + ve * 60000) by lia.
  rewrite Hoffset. lia.
Qed.

Lemma appointment_span_witness :
  exists starts ends,
    Appointment.appointmentDateTime utc sampleAppointment = Some (JS.Int starts)
    /\ Appointment.appointmentEndDateTime utc sampleAppointment = Some (JS.Int ends)
    /\ ends - starts = (minuteOf "10:30" - minuteOf "10:00") * 60000.
Proof.
  apply (appointment_span utc sampleAppointment); reflexivity.
Defined.




(** *** Deleting *)

Lemma In_removeById (docs : Appointment.Collection) (id : ObjectId) (x : Appointment.t) :
  In x (Appointment.removeById docs id) -> In x docs.
Proof.
  induction docs as [|a docs IH]; cbn [Appointment.removeById]; [easy|].
  destruct (a.(Appointment._id) =? id)%N; cbn [In]; intuition.
Qed.

Lemma findById_removeById_other (docs : Appointment.Collection) (id other : ObjectId) :
  other <> id ->
  Appointment.findById (Appointment.removeById docs id) other =
  Appointment.findById docs other.
Proof.
  intro Hne. unfold Appointment.findById.
  induction docs as [|a docs IH]; cbn [Appointment.removeById find]; [reflexivity|].
  destruct (N.eqb_spec a.(Appointment._id) id) as [Heq|Hneq].
  - destruct (N.eqb_spec a.(Appointment._id) other); [congruence|reflexivity].
  - cbn [find]. destruct (a.(Appointment._id) =? other)%N; [reflexivity|exact IH].
Qed.

Lemma findById_removeById_same (docs : Appointment.Collection) (id : ObjectId) :
  NoDup (map Appointment._id docs) ->
  Appointment.findById (Appointment.removeById docs id) id = None.
Proof.
  unfold Appointment.findById.
  induction docs as [|a docs IH]; cbn [Appointment.removeById find map]; [reflexivity|].
  intro Hnd. inversion Hnd as [|? ? Hnotin Hrest]; subst.
  destruct (N.eqb_spec a.(Appointment._id) id) as [Heq|Hneq].
  - destruct (find (fun x => (x.(Appointment._id) =? id)%N) docs) as [x|] eqn:Hx;
      [|reflexivity].
    apply find_some in Hx. destruct Hx as [Hin Hid]. apply N.eqb_eq in Hid.
    exfalso. apply Hnotin. rewrite Heq, <- Hid. now apply in_map.
  - cbn [find]. destruct (N.eqb_spec a.(Appointment._id) id); [contradiction|].
    now apply IH.
Qed.

(** X24. [deleteAppointment] removes the addressed appointment and nothing
    else: an unknown id is answered not-found and changes nothing; other
    appointments, the dentists and the patients stay as they were; no
    double booking is created; and when the ids of the collection are
    distinct the deleted id is no longer found. *)
Theorem delete_removes_one (id : ObjectId) (db : Db) :
  let db' := fst (Controller.run (Controller.deleteAppointment id) db) in
  let o := snd (Controller.run (Controller.deleteAppointment id) db) in
  (Appointment.findById db.(appointments) id = None ->
   db' = db /\ o = Controller.Sent (Controller.notFoundResponse "Appointment"))
  /\ (Appointment.findById db.(appointments) id <> None ->
      o = Controller.Sent
            (Controller.successResponse None "Appointment deleted successfully")
      /\ S (List.length db'.(appointments)) = List.length db.(appointments))
  /\ db'.(dentists) = db.(dentists)
  /\ db'.(patients) = db.(patients)
  /\ (forall other, other <> id ->
        Appointment.findById db'.(appointments) other =
        Appointment.findById db.(appointments) other)
  /\ (noDoubleBooking db.(appointments) -> noDoubleBooking db'.(appointments))
  /\ (NoDup (map Appointment._id db.(appointments)) ->
      Appointment.findById db'.(appointments) id = None).
Proof.
  cbv zeta.
  unfold Controller.run, Controller.deleteAppointment, Controller.bind,
    Controller.Appointment_findByIdAndDelete, Appointment.findByIdAndDelete,
    Controller.orReturn, Controller.ret, Controller.respond.
  destruct (Appointment.findById db.(appointments) id) as [doc|] eqn:Hfind;
    cbn [fst snd appointments dentists patients set_appointments].
  - split; [discriminate|]. split.
    { intros _. split; [reflexivity|].
      unfold Appointment.findById in Hfind. clear -Hfind.
      induction db.(appointments) as [|a docs IH]; [discriminate|].
      cbn [find Appointment.removeById List.length] in *.
      destruct (a.(Appointment._id) =? id)%N; [reflexivity|].
      cbn [List.length]. f_equal. now apply IH. }
    repeat split.
    + intros other Hother. now apply findById_removeById_other.
    + intros Hinv x y Hx Hy. apply Hinv; eapply In_removeById; eassumption.
    + apply findById_removeById_same.
  - split; [intros _; split; [apply set_appointments_same|reflexivity]|].
    split; [congruence|]. repeat split; auto.
Qed.

Lemma delete_removes_one_witness :
  Appointment.findById
    (fst (Controller.run (Controller.deleteAppointment 100%N) twoAppointments))
      .(appointments) 100%N = None.
Proof.
  pose proof (delete_removes_one 100%N twoAppointments) as H. cbv zeta in H.
  destruct H as (_ & _ & _ & _ & _ & _ & H).
  apply H. cbn.
  constructor; [intros [H1|[]]; discriminate H1|].
  constructor; [intros []|constructor].
Defined.
